(** * ChainBreak graph renderer: a shallow embedding of
      [frontend/src/components/GraphRenderer.js]

    The component receives a JSON payload ([graphData]), builds an internal
    graph ([initializeGraph]), renders it with d3 ([initializeD3]), and
    overlays the answer of a community-detection service
    ([runLouvainAlgorithm]).

    Conventions of the embedding:
    - JavaScript values are the inductive type [jsval]; a missing property
      reads as [JUndefined], exactly as in JavaScript.
    - JavaScript numbers are idealised as rationals ([Q]) plus [NaN];
      rounding and infinities are outside the model.
    - Objects and arrays compare by reference under [===]. The payloads come
      from [JSON.parse], where every object is a fresh allocation, so two
      object-valued properties are never strictly equal. Where the source
      keeps such a value as a key, the key carries the place it was read
      from ([scale_key]).
    - What a value inherits from its prototype belongs to the JavaScript
      realm and is a parameter ([realm]) wherever the source reads a
      property whose name is computed.
    - d3 is a library, not part of the repository: the few d3 operations the
      component calls are modelled after d3's documented behaviour and are
      marked as such where they are introduced. *)

From Stdlib Require Import List String Ascii Bool ZArith QArith Lia
  DecimalString.
Import ListNotations.
Open Scope string_scope.
Open Scope list_scope.

(** ** JavaScript values *)

Module JS.

Inductive jsnum : Type :=
| NaN
| Num (q : Q).

#[warnings="-register-all"]
Inductive jsval : Type :=
| JUndefined
| JNull
| JBool (b : bool)
| JNumber (n : jsnum)
| JStr (s : string)
| JFun
| JArr (items : list jsval)
| JObj (fields : list (string * jsval)).

Definition JNum (q : Q) : jsval := JNumber (Num q).

(** ToBoolean. *)
Definition truthy (v : jsval) : bool :=
  match v with
  | JUndefined | JNull => false
  | JBool b => b
  | JNumber NaN => false
  | JNumber (Num q) => negb (Qeq_bool q 0)
  | JStr s => negb (s =? "")
  | JFun | JArr _ | JObj _ => true
  end.

Fixpoint lookup (k : string) (fs : list (string * jsval)) : jsval :=
  match fs with
  | [] => JUndefined
  | (k', v) :: rest => if k' =? k then v else lookup k rest
  end.

(** Property read [v.k] under a name written in the source. Every such
    read is guarded by a truthiness test of [v], so the TypeError of
    reading from null or undefined never arises; none of the names is one
    that a value inherits, and on other primitives and on arrays the named
    properties used here are absent. A read under a computed name is
    [member] below. *)
Definition get (k : string) (v : jsval) : jsval :=
  match v with
  | JObj fs => lookup k fs
  | _ => JUndefined
  end.

(** [a === b]. *)
Definition strict_eq (a b : jsval) : bool :=
  match a, b with
  | JUndefined, JUndefined => true
  | JNull, JNull => true
  | JBool x, JBool y => Bool.eqb x y
  | JNumber (Num x), JNumber (Num y) => Qeq_bool x y
  | JStr x, JStr y => x =? y
  | _, _ => false
  end.

(** [a || b] and [a ?? b]. *)
Definition or_else (a b : jsval) : jsval := if truthy a then a else b.

Definition is_nullish (v : jsval) : bool :=
  match v with
  | JUndefined | JNull => true
  | _ => false
  end.

Definition is_string (v : jsval) : bool :=
  match v with
  | JStr _ => true
  | _ => false
  end.

Definition is_function (v : jsval) : bool :=
  match v with
  | JFun => true
  | _ => false
  end.

(** [exclude.includes(key)]. *)
Definition includes (keys : list string) (k : string) : bool :=
  existsb (String.eqb k) keys.

(** *** Numbers *)

Definition qmax (a b : Q) : Q := if Qle_bool a b then b else a.
Definition qmin (a b : Q) : Q := if Qle_bool a b then a else b.

Definition num_lift2 (f : Q -> Q -> Q) (a b : jsnum) : jsnum :=
  match a, b with
  | Num x, Num y => Num (f x y)
  | _, _ => NaN
  end.

(** [Math.max], [Math.min], [+] and [/] on numbers: NaN is contagious. The
    divisors in the source are non-zero literals. *)
Definition math_max : jsnum -> jsnum -> jsnum := num_lift2 qmax.
Definition math_min : jsnum -> jsnum -> jsnum := num_lift2 qmin.
Definition num_add : jsnum -> jsnum -> jsnum := num_lift2 Qplus.
Definition num_div : jsnum -> jsnum -> jsnum := num_lift2 Qdiv.

Section Coercion.

(** ToNumber on strings, functions, arrays and objects (string parsing and
    ToPrimitive) is left to the caller. *)
Variable coerce : jsval -> jsnum.

Definition to_number (v : jsval) : jsnum :=
  match v with
  | JUndefined => NaN
  | JNull => Num 0
  | JBool b => Num (if b then 1 else 0)
  | JNumber n => n
  | _ => coerce v
  end.

(** [v > c] and [v <= c] against a numeric literal [c]: false on NaN. *)
Definition gt_lit (v : jsval) (c : Q) : bool :=
  match to_number v with
  | Num q => negb (Qle_bool q c)
  | NaN => false
  end.

Definition le_lit (v : jsval) (c : Q) : bool :=
  match to_number v with
  | Num q => Qle_bool q c
  | NaN => false
  end.

End Coercion.

(** *** Reading a property whose name is computed: [v[key]]

    An own property is found first: a field of an object, an index or the
    length of an array or of a string. Anything else is looked for on the
    prototype chain, which belongs to the realm and not to the value:
    [Object.prototype] gives every object [constructor], [toString],
    [__proto__] and so on. [inherited v key] is the property the chain of
    [v] holds under [key], together with a number telling the realm's
    objects and functions apart, or [None] where the chain has none. *)
Definition realm : Type := jsval -> string -> option (jsval * nat).

Fixpoint own_field (k : string) (fs : list (string * jsval)) : option jsval :=
  match fs with
  | [] => None
  | (k', v) :: rest => if k' =? k then Some v else own_field k rest
  end.

(** The property name of an array index: its decimal numeral. *)
Definition index_name (i : nat) : string :=
  NilZero.string_of_uint (Nat.to_uint i).

Fixpoint element (key : string) (items : list jsval) (i : nat)
  : option jsval :=
  match items with
  | [] => None
  | v :: rest => if index_name i =? key then Some v
                 else element key rest (S i)
  end.

Definition of_length {A : Type} (l : list A) : jsval :=
  JNum (inject_Z (Z.of_nat (List.length l))).

Definition units (s : string) : list jsval :=
  map (fun c => JStr (String c "")) (list_ascii_of_string s).

Definition own (key : string) (v : jsval) : option jsval :=
  match v with
  | JObj fs => own_field key fs
  | JArr items =>
      if key =? "length" then Some (of_length items) else element key items 0
  | JStr s =>
      if key =? "length" then Some (of_length (units s))
      else element key (units s) 0
  | _ => None
  end.

(** Where a value was read: the own property of that name, or the object
    of the realm with that number. Objects, arrays and functions are told
    apart by it: every own property of a parsed answer holds an object of
    its own, and reading the same property again gives the same object. *)
Inductive reference : Type :=
| AtProperty (name : string)
| AtBuiltin (oid : nat).

Definition same_reference (a b : reference) : bool :=
  match a, b with
  | AtProperty x, AtProperty y => x =? y
  | AtBuiltin i, AtBuiltin j => Nat.eqb i j
  | _, _ => false
  end.

(** A value read with [v[key]], as d3's ordinal scale keeps it. *)
Record scale_key : Type := mkKey {
  key_value : jsval;
  key_ref : reference
}.

(** [v[key]] for a [v] that is neither null nor undefined. *)
Definition member (inherited : realm) (key : string) (v : jsval)
  : scale_key :=
  match own key v with
  | Some x => mkKey x (AtProperty key)
  | None =>
      match inherited v key with
      | Some (x, oid) => mkKey x (AtBuiltin oid)
      | None => mkKey JUndefined (AtProperty key)
      end
  end.

Definition is_primitive_value (v : jsval) : bool :=
  match v with
  | JFun | JArr _ | JObj _ => false
  | _ => true
  end.

(** SameValueZero on primitives: NaN is equal to itself. *)
Definition same_value_zero (a b : jsval) : bool :=
  match a, b with
  | JUndefined, JUndefined => true
  | JNull, JNull => true
  | JBool x, JBool y => Bool.eqb x y
  | JNumber NaN, JNumber NaN => true
  | JNumber (Num x), JNumber (Num y) => Qeq_bool x y
  | JStr x, JStr y => x =? y
  | _, _ => false
  end.

(** Keys of d3's ordinal scale (an InternMap): primitives by value,
    everything else by reference. (d3 asks an object key for its
    [valueOf()]; an object whose own [valueOf] property hides the inherited
    method is outside the model, like every conversion of an object that
    throws.) *)
Definition same_key (a b : scale_key) : bool :=
  if is_primitive_value (key_value a) then
    is_primitive_value (key_value b)
    && same_value_zero (key_value a) (key_value b)
  else
    negb (is_primitive_value (key_value b))
    && same_reference (key_ref a) (key_ref b).

(** A realm for examples: what a plain object inherits from
    [Object.prototype]. *)
Definition object_prototype : list string :=
  ["constructor"; "hasOwnProperty"; "isPrototypeOf"; "propertyIsEnumerable";
   "toLocaleString"; "toString"; "valueOf"; "__proto__";
   "__defineGetter__"; "__defineSetter__"; "__lookupGetter__";
   "__lookupSetter__"].

Fixpoint position (key : string) (names : list string) (i : nat)
  : option nat :=
  match names with
  | [] => None
  | n :: rest => if n =? key then Some i else position key rest (S i)
  end.

Definition plain_objects : realm :=
  fun v key =>
    match v with
    | JObj _ =>
        match position key object_prototype 0 with
        | Some i => Some (if key =? "__proto__" then JObj [] else JFun, i)
        | None => None
        end
    | _ => None
    end.

End JS.

Import JS.

(** ** GraphModelBuilder: [initializeGraph] *)

Module Builder.

Record VisualNode : Type := mkNode {
  node_id : string;
  node_label : jsval;
  node_size : jsval;
  node_color : jsval;
  node_x : jsval;
  node_y : jsval;
  node_type : jsval;
  node_attrs : list (string * jsval)
}.

Record VisualEdge : Type := mkEdge {
  edge_source : jsval;
  edge_target : jsval;
  edge_weight : jsval;
  edge_color : jsval;
  edge_size : jsval;
  edge_type : jsval;
  edge_attrs : list (string * jsval)
}.

Record Graph : Type := mkGraph {
  nodes : list VisualNode;
  edges : list VisualEdge
}.

(** What [initializeGraph] hands back: the graph, [null] without side effect
    (no data or no container), or [null] after [setError] (the [catch]). *)
Inductive build_result : Type :=
| Built (g : Graph)
| NoGraph
| BuildFailed.

(** [Object.entries(n).filter(([key, value]) => ...)]. *)
Definition passthrough (exclude : list string) (fs : list (string * jsval))
  : list (string * jsval) :=
  filter (fun kv =>
            negb (includes exclude (fst kv))
            && negb (strict_eq (snd kv) JUndefined)
            && negb (strict_eq (snd kv) JNull)
            && negb (is_function (snd kv))) fs.

Definition entries (v : jsval) : list (string * jsval) :=
  match v with
  | JObj fs => fs
  | _ => []
  end.

Definition node_exclude : list string :=
  ["type"; "id"; "label"; "size"; "color"; "x"; "y"].

Definition edge_exclude : list string :=
  ["source"; "target"; "weight"; "color"; "size"; "type"; "id"].

(** [n && typeof n.id === 'string'] *)
Definition keep_node (n : jsval) : bool :=
  truthy n && is_string (get "id" n).

(** [e && e.source && e.target && e.source !== e.target] *)
Definition keep_edge (e : jsval) : bool :=
  truthy e && truthy (get "source" e) && truthy (get "target" e)
  && negb (strict_eq (get "source" e) (get "target" e)).

Section WithRandom.

(** [Math.random()]: the k-th draw of the run, a number in [0, 1). *)
Variable random : nat -> Q.

(** [n.x ?? Math.random() * 1000]: a draw is consumed only when the
    coordinate is missing. *)
Definition coord (v : jsval) (k : nat) : jsval * nat :=
  if is_nullish v then (JNum (random k * 1000), S k) else (v, k).

Definition id_string (v : jsval) : string :=
  match v with
  | JStr s => s
  | _ => ""
  end.

Definition build_node (n : jsval) (k : nat) : VisualNode * nat :=
  let '(x, k1) := coord (get "x" n) k in
  let '(y, k2) := coord (get "y" n) k1 in
  ({| node_id := id_string (get "id" n);
      node_label := or_else (get "label" n) (get "id" n);
      node_size := JNum 8;
      node_color := or_else (get "color" n) (JStr "#6366f1");
      node_x := x;
      node_y := y;
      node_type := JStr "circle";
      node_attrs := passthrough node_exclude (entries n) |}, k2).

Fixpoint build_nodes (ns : list jsval) (k : nat) : list VisualNode :=
  match ns with
  | [] => []
  | n :: rest =>
      let '(v, k') := build_node n k in v :: build_nodes rest k'
  end.

Definition build_edge (e : jsval) : VisualEdge :=
  {| edge_source := get "source" e;
     edge_target := get "target" e;
     edge_weight := or_else (get "weight" e) (JNum 1);
     edge_color := or_else (get "color" e) (JStr "#94a3b8");
     edge_size := or_else (get "size" e) (JNum 1);
     edge_type := JStr "line";
     edge_attrs := passthrough edge_exclude (entries e) |}.

(** [(graphData.nodes || [])] followed by [.filter]: anything truthy that is
    not an array has no [filter] method, and the call throws. *)
Definition as_list (v : jsval) : option (list jsval) :=
  match or_else v (JArr []) with
  | JArr items => Some items
  | _ => None
  end.

Definition initializeGraph (container : bool) (graphData : jsval)
  : build_result :=
  if negb (truthy graphData) || negb container then NoGraph
  else
    match as_list (get "nodes" graphData), as_list (get "edges" graphData) with
    | Some rawNodes, Some rawEdges =>
        Built {| nodes := build_nodes (filter keep_node rawNodes) 0;
                 edges := map build_edge (filter keep_edge rawEdges) |}
    | _, _ => BuildFailed
    end.

End WithRandom.

(** The ids of the nodes retained in a graph. *)
Definition node_ids (g : Graph) : list string := map node_id (nodes g).

(** An edge references two distinct node ids that both resolve in [g]. *)
Definition edge_resolved (g : Graph) (e : VisualEdge) : Prop :=
  exists s t, edge_source e = JStr s /\ edge_target e = JStr t
              /\ s <> t /\ In s (node_ids g) /\ In t (node_ids g).

(** Numeric reading of "weight at least 1". *)
Definition weight_at_least_one (e : VisualEdge) : Prop :=
  exists q, edge_weight e = JNum q /\ (1 <= q)%Q.

(** Sample payloads. *)
Definition obj_id (s : string) : jsval := JObj [("id", JStr s)].

Definition payload (ns es : list jsval) : jsval :=
  JObj [("nodes", JArr ns); ("edges", JArr es)].

Definition raw_edge (s t : string) : jsval :=
  JObj [("source", JStr s); ("target", JStr t)].

Definition zero_random : nat -> Q := fun _ => 0%Q.

End Builder.

Import Builder.

(** ** RenderPipeline: the attribute callbacks of [initializeD3] *)

Module Render.

(** Property read [d.k] on a built node. The object literal lists the fixed
    properties and then spreads the passed-through entries; the exclusion
    list of [initializeGraph] keeps every fixed name out of the spread, so
    the fixed properties are read from the record and all others from
    [node_attrs]. *)
Definition node_get (k : string) (d : VisualNode) : jsval :=
  if k =? "id" then JStr (node_id d)
  else if k =? "label" then node_label d
  else if k =? "size" then node_size d
  else if k =? "color" then node_color d
  else if k =? "x" then node_x d
  else if k =? "y" then node_y d
  else if k =? "type" then node_type d
  else lookup k (node_attrs d).

(** One entry of the [illicitAddresses] prop, with the fields the
    callbacks of [initializeD3] read. *)
Record IllicitFlag : Type := mkFlag {
  address : jsval;
  risk_level : jsval;
  confidence : jsval;
  sources : jsval;
  illicit_activity_analysis : jsval
}.

(** A [fill] or [stroke] attribute: a value handed to d3 as is, or
    [d3.color(base).darker(1)]. *)
Inductive paint : Type :=
| Plain (v : jsval)
| Darker (base : string).

Definition hex (s : string) : paint := Plain (JStr s).

Definition flagged_fill : paint := hex "#ef4444".
Definition flagged_stroke : paint := hex "#dc2626".

(** [illicitAddresses.some(illicit => illicit.address === d.id)] *)
Definition isIllicit (illicitAddresses : list IllicitFlag) (d : VisualNode)
  : bool :=
  existsb (fun illicit => strict_eq (address illicit) (node_get "id" d))
          illicitAddresses.

Section WithCoercion.

Variable coerce : jsval -> jsnum.

Definition is_kind (kind : string) (d : VisualNode) : bool :=
  strict_eq (node_get "type" d) (JStr kind).

(** [Math.max(lo, Math.min(hi, (v || 0) / 1000000000 + lo))] *)
Definition scaled_radius (lo hi : Q) (v : jsval) : jsnum :=
  math_max (Num lo)
    (math_min (Num hi)
       (num_add (num_div (to_number coerce (or_else v (JNum 0)))
                         (Num 1000000000))
                (Num lo))).

(** The [r] callback. *)
Definition nodeRadius (d : VisualNode) : jsval :=
  if is_kind "address" d then
    JNumber (scaled_radius 6 15 (node_get "balance" d))
  else if is_kind "transaction" d then
    JNumber (scaled_radius 4 12 (node_get "total_input_value" d))
  else or_else (node_get "size" d) (JNum 8).

(** The [fill] callback. *)
Definition nodeFill (illicitAddresses : list IllicitFlag) (d : VisualNode)
  : paint :=
  if isIllicit illicitAddresses d then flagged_fill
  else if is_kind "address" d then
    if gt_lit coerce (node_get "balance" d) 0 then hex "#10b981"
    else hex "#6b7280"
  else if is_kind "transaction" d then hex "#3b82f6"
  else Plain (or_else (node_get "color" d) (JStr "#6366f1")).

(** The [stroke] callback. *)
Definition nodeStroke (illicitAddresses : list IllicitFlag) (d : VisualNode)
  : paint :=
  if isIllicit illicitAddresses d then flagged_stroke
  else if is_kind "address" d && gt_lit coerce (node_get "balance" d) 0
  then hex "#059669"
  else if is_kind "transaction" d then hex "#1d4ed8"
  else hex "#111827".

(** A [circle] element of the rendered svg together with its bound datum. *)
Record Circle : Type := mkCircle {
  datum : VisualNode;
  attr_r : jsval;
  attr_fill : paint;
  attr_stroke : paint;
  attr_stroke_width : Q
}.

(** [nodeGroup.selectAll('circle').data(graph.nodes).join('circle')...] *)
Definition draw_circles (illicitAddresses : list IllicitFlag) (g : Graph)
  : list Circle :=
  map (fun d => {| datum := d;
                   attr_r := nodeRadius d;
                   attr_fill := nodeFill illicitAddresses d;
                   attr_stroke := nodeStroke illicitAddresses d;
                   attr_stroke_width := 2%Q |})
      (nodes g).

(** *** The tooltip callback, lines 188-217

    The text of a tooltip is not modelled, only whether building it throws,
    which ends [initializeD3] in its [catch]. The flags are JSON data, so a
    method is there exactly when the value is of the type that has it.
    Converting a value to text or to a number is taken to succeed, as
    [coerce] is in the attribute callbacks ([Renderer.plain_fields] and
    [Renderer.plain_flags] say when it does). *)

(** [v?.toUpperCase()] and [v?.replace(/_/g, ' ').toUpperCase()]: skipped on
    null and undefined, a TypeError on anything but a string. *)
Definition string_call_throws (v : jsval) : bool :=
  negb (is_nullish v) && negb (is_string v).

(** [v.join(', ')]: only an array has [join]. *)
Definition join_throws (v : jsval) : bool :=
  match v with
  | JArr _ => false
  | _ => true
  end.

(** [v?.length > 0] *)
Definition has_items (v : jsval) : bool :=
  match v with
  | JArr items => negb (Nat.eqb (List.length items) 0)
  | JStr s => negb (s =? "")
  | JObj fs => gt_lit coerce (lookup "length" fs) 0
  | _ => false
  end.

(** [v.map(sa => sa.type.replace(/_/g, ' ')).join(', ')], behind
    [v?.length > 0]. *)
Definition secondary_throws (v : jsval) : bool :=
  has_items v
  && match v with
     | JArr items => existsb (fun sa => negb (is_string (get "type" sa))) items
     | _ => true
     end.

(** [v.slice(0, 2).join(', ')], behind [v?.length > 0]: the slice of a
    string is a string, which has no [join]. *)
Definition indicators_throw (v : jsval) : bool :=
  has_items v && join_throws v.

Definition flag_tooltip_throws (illicitData : IllicitFlag) : bool :=
  string_call_throws (risk_level illicitData)
  || join_throws (sources illicitData)
  || (let analysis := illicit_activity_analysis illicitData in
      truthy analysis
      && (string_call_throws (get "primary_activity_type" analysis)
          || secondary_throws (get "secondary_activities" analysis)
          || indicators_throw (get "risk_indicators" analysis))).

(** [illicitAddresses.find(illicit => illicit.address === d.id)] and the
    lines that read the flag found. *)
Definition tooltip_throws (illicitAddresses : list IllicitFlag)
  (d : VisualNode) : bool :=
  match find (fun illicit => strict_eq (address illicit) (node_get "id" d))
             illicitAddresses with
  | Some illicitData => flag_tooltip_throws illicitData
  | None => false
  end.

End WithCoercion.

(** The colours of a rendering, circle by circle. *)
Definition colours (cs : list Circle) : list (paint * paint) :=
  map (fun c => (attr_fill c, attr_stroke c)) cs.

(** ToNumber of a non-number, non-boolean value taken as NaN: used where a
    concrete coercion is needed to run an example. *)
Definition no_coercion : jsval -> jsnum := fun _ => NaN.

End Render.

Import Render.

(** ** CommunityOverlayClient: [runLouvainAlgorithm] *)

Module Overlay.

Definition schemeCategory10 : list string :=
  ["#1f77b4"; "#ff7f0e"; "#2ca02c"; "#d62728"; "#9467bd";
   "#8c564b"; "#e377c2"; "#7f7f7f"; "#bcbd22"; "#17becf"].

Definition schemePaired : list string :=
  ["#a6cee3"; "#1f78b4"; "#b2df8a"; "#33a02c"; "#fb9a99"; "#e31a1c";
   "#fdbf6f"; "#ff7f00"; "#cab2d6"; "#6a3d9a"; "#ffff99"; "#b15928"].

(** *** [d3.scaleOrdinal(range)] (d3-scale)

    The scale is created without a domain. d3 then builds the domain
    implicitly: a key not seen before is appended to the domain, and a key
    at domain position [i] maps to [range[i % range.length]]. The domain is
    the scale's mutable state and is threaded explicitly. *)

Fixpoint index_of (key : scale_key) (domain : list scale_key) : option nat :=
  match domain with
  | [] => None
  | k :: rest =>
      if same_key k key then Some O else option_map S (index_of key rest)
  end.

Definition pick (range : list string) (i : nat) : string :=
  nth (i mod List.length range) range "".

Definition colorScale (range : list string) (domain : list scale_key)
  (key : scale_key) : string * list scale_key :=
  match index_of key domain with
  | Some i => (pick range i, domain)
  | None => (pick range (List.length domain), domain ++ [key])
  end.

(** *** The overlay: lines 336-368 *)

(** [partition[d.id]]: the partition is truthy where the callbacks run. *)
Definition communityId (inherited : realm) (partition : jsval)
  (d : VisualNode) : scale_key :=
  member inherited (node_id d) partition.

(** [communityId !== undefined] *)
Definition in_partition (id : scale_key) : bool :=
  negb (strict_eq (key_value id) JUndefined).

(** The [fill] callback of the overlay. *)
Definition communityFill (inherited : realm) (range : list string)
  (partition : jsval) (d : VisualNode) (domain : list scale_key)
  : paint * list scale_key :=
  let id := communityId inherited partition d in
  if in_partition id then
    let '(c, domain') := colorScale range domain id in
    (hex c, domain')
  else (Plain (or_else (node_get "color" d) (JStr "#6366f1")), domain).

(** The [stroke] callback of the overlay. *)
Definition communityStroke (inherited : realm) (range : list string)
  (partition : jsval) (d : VisualNode) (domain : list scale_key)
  : paint * list scale_key :=
  let id := communityId inherited partition d in
  if in_partition id then
    let '(baseColor, domain') := colorScale range domain id in
    (Darker baseColor, domain')
  else (hex "#111827", domain).

Definition set_fill (c : Circle) (p : paint) : Circle :=
  {| datum := datum c; attr_r := attr_r c;
     attr_fill := p; attr_stroke := attr_stroke c;
     attr_stroke_width := attr_stroke_width c |}.

Definition set_stroke (c : Circle) (p : paint) : Circle :=
  {| datum := datum c; attr_r := attr_r c;
     attr_fill := attr_fill c; attr_stroke := p;
     attr_stroke_width := attr_stroke_width c |}.

(** [.attr('stroke-width', 2.5)], line 365 *)
Definition set_stroke_width (w : Q) (c : Circle) : Circle :=
  {| datum := datum c; attr_r := attr_r c;
     attr_fill := attr_fill c; attr_stroke := attr_stroke c;
     attr_stroke_width := w |}.

(** [transition.attr(name, fn)] evaluates [fn] on every circle of the
    selection, in document order, when [attr] is called; the transition
    then carries the attribute to that value. The circles are shown with
    the value the transition ends on. *)
Fixpoint attr_pass
  (fn : VisualNode -> list scale_key -> paint * list scale_key)
  (set : Circle -> paint -> Circle) (cs : list Circle)
  (domain : list scale_key) : list Circle * list scale_key :=
  match cs with
  | [] => ([], domain)
  | c :: rest =>
      let '(p, domain1) := fn (datum c) domain in
      let '(rest', domain2) := attr_pass fn set rest domain1 in
      (set c p :: rest', domain2)
  end.

Section WithCoercion.

Variable coerce : jsval -> jsnum.
Variable inherited : realm.

Definition palette (data : jsval) : list string :=
  if le_lit coerce (get "num_communities" data) 10
  then schemeCategory10 else schemePaired.

Definition applyCommunityColors (data : jsval) (cs : list Circle)
  : list Circle :=
  let partition := get "partition" data in
  let range := palette data in
  let '(cs1, domain1) :=
    attr_pass (communityFill inherited range partition) set_fill cs [] in
  let '(cs2, _) :=
    attr_pass (communityStroke inherited range partition) set_stroke cs1
              domain1 in
  map (set_stroke_width (5 # 2)%Q) cs2.

(** *** The component state the overlay touches *)

Inductive toast : Type :=
| ToastError (msg : string)
| ToastSuccess.

Record State : Type := mkState {
  graph : Graph;                    (* graphRef.current *)
  svg : option (list Circle);       (* svgRef.current and its circles *)
  simulation : bool;                (* simulationRef.current is set *)
  isLoading : bool;
  layoutRunning : bool;
  containerReady : bool;
  error : option string;
  communities : option jsval;
  toasts : list toast;
  fetches : nat                     (* calls of fetch made so far *)
}.

Definition setIsLoading (b : bool) (s : State) : State :=
  mkState (graph s) (svg s) (simulation s) b (layoutRunning s)
          (containerReady s) (error s) (communities s) (toasts s) (fetches s).

Definition setLayoutRunning (b : bool) (s : State) : State :=
  mkState (graph s) (svg s) (simulation s) (isLoading s) b
          (containerReady s) (error s) (communities s) (toasts s) (fetches s).

Definition setError (e : string) (s : State) : State :=
  mkState (graph s) (svg s) (simulation s) (isLoading s) (layoutRunning s)
          (containerReady s) (Some e) (communities s) (toasts s) (fetches s).

Definition setCommunities (data : jsval) (s : State) : State :=
  mkState (graph s) (svg s) (simulation s) (isLoading s) (layoutRunning s)
          (containerReady s) (error s) (Some data) (toasts s) (fetches s).

Definition add_toast (t : toast) (s : State) : State :=
  mkState (graph s) (svg s) (simulation s) (isLoading s) (layoutRunning s)
          (containerReady s) (error s) (communities s) (toasts s ++ [t])
          (fetches s).

Definition set_svg (cs : option (list Circle)) (s : State) : State :=
  mkState (graph s) cs (simulation s) (isLoading s) (layoutRunning s)
          (containerReady s) (error s) (communities s) (toasts s) (fetches s).

Definition do_fetch (s : State) : State :=
  mkState (graph s) (svg s) (simulation s) (isLoading s) (layoutRunning s)
          (containerReady s) (error s) (communities s) (toasts s)
          (S (fetches s)).

(** What the awaited [fetch] and [response.json()] give back. The status
    code only feeds the error text and is left out. *)
Inductive fetch_outcome : Type :=
| Rejected                                   (* fetch rejects *)
| Answered (ok : bool) (body : option jsval) (* [None]: json() rejects *).

(** The [catch] block. The thrown message is appended to both texts in the
    source; the model keeps the fixed part. *)
Definition runLouvainAlgorithm_catch (s : State) : State :=
  setIsLoading false
    (add_toast (ToastError "Failed to detect communities")
       (setError "Community detection failed" s)).

(** [runLouvainAlgorithm] up to the [await fetch(...)]. The request body is
    built from [graphRef.current]; only its emptiness test is kept. *)
Definition runLouvainAlgorithm (s : State) : State :=
  let s1 := setIsLoading true s in
  if (List.length (nodes (graph s)) =? 0)%nat
     || (List.length (edges (graph s)) =? 0)%nat
  then
    setIsLoading false
      (add_toast
         (ToastError "Graph must have nodes and edges to run community detection")
         s1)
  else do_fetch s1.

(** [runLouvainAlgorithm] from the point where the awaited fetch settles. *)
Definition runLouvainAlgorithm_resume (o : fetch_outcome) (s : State) : State :=
  match o with
  | Rejected => runLouvainAlgorithm_catch s
  | Answered false _ => runLouvainAlgorithm_catch s
  | Answered true None => runLouvainAlgorithm_catch s
  | Answered true (Some result) =>
      if negb (truthy (get "success" result)) then runLouvainAlgorithm_catch s
      else
        let data := get "data" result in
        (* logger.info reads data.num_communities *)
        if is_nullish data then runLouvainAlgorithm_catch s
        else
          let s1 :=
            match svg s with
            | Some cs =>
                if truthy (get "partition" data)
                then set_svg (Some (applyCommunityColors data cs)) s
                else s
            | None => s
            end in
          let s2 := setCommunities data s1 in
          (* data.modularity.toFixed(3) *)
          match get "modularity" data with
          | JNumber _ => setIsLoading false (add_toast ToastSuccess s2)
          | _ => runLouvainAlgorithm_catch s2
          end
  end.

(** [runForceAtlas2] up to its [setTimeout], and the timeout's callback. *)
Definition runForceAtlas2 (s : State) : State :=
  if negb (simulation s) then s
  else setLayoutRunning true (setIsLoading true s).

Definition layout_timeout (s : State) : State :=
  setIsLoading false (setLayoutRunning false s).

(** Events of one session. [LouvainSettles req o] resumes the call of
    [runLouvainAlgorithm] that sent the [req]-th request; the handler has
    no access to [req]. [LayoutTimer] is the 300 ms timer the mount effect
    sets (line 530), which enters [runForceAtlas2] whatever [isLoading]
    is; [LayoutTimeout] is the 500 ms timer inside [runForceAtlas2]. *)
Inductive event : Type :=
| ClickRunLouvain
| LouvainSettles (req : nat) (o : fetch_outcome)
| LayoutTimer
| LayoutTimeout.

(** The "Run Louvain" button carries
    [disabled={isLoading || !containerReady}]. *)
Definition step (s : State) (e : event) : State :=
  match e with
  | ClickRunLouvain =>
      if isLoading s || negb (containerReady s) then s
      else runLouvainAlgorithm s
  | LouvainSettles _ o => runLouvainAlgorithm_resume o s
  | LayoutTimer => runForceAtlas2 s
  | LayoutTimeout => layout_timeout s
  end.

Definition run (s : State) (tr : list event) : State := fold_left step tr s.

End WithCoercion.

(** *** The overlay read as a function of partition and node sequence

    What the two passes amount to, for comparison with
    [applyCommunityColors]. *)

(** Position a key gets in the domain: where it is, or the next free one. *)
Definition rank (key : scale_key) (domain : list scale_key) : nat :=
  match index_of key domain with
  | Some i => i
  | None => List.length domain
  end.

(** The domain after the scale has been asked for [key]. *)
Definition register (domain : list scale_key) (key : scale_key)
  : list scale_key :=
  snd (colorScale [] domain key).

Section FirstMet.

Variable inherited : realm.
Variable range : list string.
Variable partition : jsval.

Local Abbreviation id_of := (communityId inherited partition).

(** The domain the scale ends with after the nodes [ds] were presented. *)
Definition encounter_order (ds : list VisualNode) (domain : list scale_key)
  : list scale_key :=
  fold_left (fun dom d =>
               if in_partition (id_of d)
               then register dom (id_of d) else dom) ds domain.

(** The colours of one circle given the final domain. *)
Definition first_met_colours (domain : list scale_key) (c : Circle)
  : Circle :=
  if in_partition (id_of (datum c)) then
    let colour := pick range (rank (id_of (datum c)) domain) in
    {| datum := datum c; attr_r := attr_r c;
       attr_fill := hex colour; attr_stroke := Darker colour;
       attr_stroke_width := (5 # 2)%Q |}
  else
    {| datum := datum c; attr_r := attr_r c;
       attr_fill := Plain (or_else (node_get "color" (datum c)) (JStr "#6366f1"));
       attr_stroke := hex "#111827";
       attr_stroke_width := (5 # 2)%Q |}.

End FirstMet.

(** *** Failure of a detection, in the words of the interface description

    The service answers [{success, data: {partition, num_communities,
    modularity}, error}]. A detection has failed when the request did not
    get through, the response is not a success, or the body does not have
    that shape. *)
Definition is_object (v : jsval) : bool :=
  match v with
  | JObj _ => true
  | _ => false
  end.

Definition is_number (v : jsval) : bool :=
  match v with
  | JNumber (Num _) => true
  | _ => false
  end.

Definition well_formed (result : jsval) : bool :=
  let data := get "data" result in
  is_object (get "partition" data)
  && is_number (get "num_communities" data)
  && is_number (get "modularity" data).

Definition detection_failed (o : fetch_outcome) : bool :=
  match o with
  | Rejected => true
  | Answered false _ => true
  | Answered true None => true
  | Answered true (Some result) =>
      negb (truthy (get "success" result)) || negb (well_formed result)
  end.

(** The failures the source tests for before it touches the circles: the
    fetch rejects, the response is not ok or has no JSON body, [success] is
    falsy, or there is no [data]. *)
Definition rejected_before_overlay (o : fetch_outcome) : bool :=
  match o with
  | Rejected => true
  | Answered false _ => true
  | Answered true None => true
  | Answered true (Some result) =>
      negb (truthy (get "success" result)) || is_nullish (get "data" result)
  end.

(** An answer whose overlay is applied. *)
Definition carries_partition (result : jsval) : bool :=
  truthy (get "success" result)
  && negb (is_nullish (get "data" result))
  && truthy (get "partition" (get "data" result)).

(** Sample session: nodes A and B joined by one edge, drawn, idle. *)
Definition sample_graph : Graph :=
  {| nodes := build_nodes zero_random [obj_id "A"; obj_id "B"] 0;
     edges := [build_edge (raw_edge "A" "B")] |}.

Definition sample_state (illicitAddresses : list IllicitFlag) : State :=
  mkState sample_graph
          (Some (draw_circles no_coercion illicitAddresses sample_graph))
          true false false true None None [] 0.

Definition answer (fields : list (string * jsval)) : fetch_outcome :=
  Answered true (Some (JObj [("success", JBool true); ("data", JObj fields)])).

Definition partition_AB (a b : Q) : jsval :=
  JObj [("A", JNum a); ("B", JNum b)].

(** The rendered colours of a state, if an svg is present. *)
Definition state_colours (s : State) : option (list (paint * paint)) :=
  option_map colours (svg s).

End Overlay.

Import Overlay.

(** ** ViewportManager: the zoom behaviour and the zoom buttons *)

Module Zoom.

Open Scope Q_scope.

Record Transform : Type := mkTransform { k : Q; tx : Q; ty : Q }.

Definition zoomIdentity : Transform := mkTransform 1 0 0.

(** *** d3-zoom

    A behaviour created by [d3.zoom()] owns its scale extent, initially
    [[0, Infinity]], and its own listeners. The current transform is not
    part of the behaviour: it is the [__zoom] property of the element, read
    and written by whichever behaviour is applied to the element. *)
Record Behaviour : Type := mkBehaviour {
  extent_min : Q;
  extent_max : option Q;          (* [None]: Infinity *)
  on_zoom : bool                  (* the component's 'zoom' listener *)
}.

(** [d3.zoom()] *)
Definition d3_zoom : Behaviour := mkBehaviour 0 None false.

(** [d3.zoom().scaleExtent([0.1, 10]).on('zoom', ...)], line 117 *)
Definition zoom : Behaviour := mkBehaviour (1 # 10) (Some 10) true.

(** [Math.max(scaleExtent[0], Math.min(scaleExtent[1], k))] *)
Definition clamp (z : Behaviour) (k1 : Q) : Q :=
  qmax (extent_min z)
       (match extent_max z with
        | Some hi => qmin hi k1
        | None => k1
        end).

(** d3's [translate(scale(t0, k1), p0, t0.invert(p0))]: rescale about [p0]. *)
Definition scale_about (z : Behaviour) (t0 : Transform) (k1 : Q)
  (px py : Q) : Transform :=
  let k' := clamp z k1 in
  mkTransform k'
    (px - ((px - tx t0) / k t0) * k')
    (py - ((py - ty t0) / k t0) * k').

(** What the page holds: the element's [__zoom], the [transform] attribute
    of the drawn group, and the React state [zoomLevel]. *)
Record View : Type := mkView {
  zoom_prop : Transform;
  g_transform : Transform;
  zoomLevel : Q
}.

Definition initial_view : View := mkView zoomIdentity zoomIdentity 1.

(** A behaviour stores the new transform on the element and tells its own
    listeners; the listener of line 119 redraws and calls [setZoomLevel]. *)
Definition emit (z : Behaviour) (t : Transform) (v : View) : View :=
  if on_zoom z then mkView t t (k t)
  else mkView t (g_transform v) (zoomLevel v).

Section WithViewport.

(** Size of the svg: [scaleBy] rescales about the centre of the extent. *)
Variables width height : Q.

(** [behaviour.scaleBy(selection, factor)] *)
Definition scaleBy (z : Behaviour) (factor : Q) (v : View) : View :=
  let t0 := zoom_prop v in
  emit z (scale_about z t0 (k t0 * factor) (width / 2) (height / 2)) v.

(** [behaviour.transform(selection, t)] *)
Definition transform_to (z : Behaviour) (t : Transform) (v : View) : View :=
  emit z t v.

(** Lines 469-497. Each button starts a 300 ms transition on the svg; the
    view is taken once the transition has ended. *)
Definition zoomIn (v : View) : View := scaleBy d3_zoom (12 # 10) v.
Definition zoomOut (v : View) : View := scaleBy d3_zoom (1 / (12 # 10)) v.
Definition resetZoom (v : View) : View := transform_to d3_zoom zoomIdentity v.

(** User input on the svg, handled by [zoom] (the behaviour the svg was
    called with). [Gesture] is a pinch, a double-click or a wheel event
    inside a running wheel gesture: the scale is multiplied by a positive
    [factor] about the pointer. [WheelStart] is the wheel event that starts
    a wheel gesture: d3-zoom drops it when the clamped scale is the stored
    one ([if (t.k === k) return]). [Pan] is a drag of the background, which
    leaves the scale as it is. *)
Inductive input : Type :=
| Gesture (factor px py : Q)
| WheelStart (factor px py : Q)
| Pan (dx dy : Q)
| ClickZoomIn
| ClickZoomOut
| ClickResetZoom.

Definition handle (v : View) (i : input) : View :=
  match i with
  | Gesture factor px py =>
      let t0 := zoom_prop v in
      emit zoom (scale_about zoom t0 (k t0 * factor) px py) v
  | WheelStart factor px py =>
      let t0 := zoom_prop v in
      if Qeq_bool (k t0) (clamp zoom (k t0 * factor)) then v
      else emit zoom (scale_about zoom t0 (k t0 * factor) px py) v
  | Pan dx dy =>
      let t0 := zoom_prop v in
      emit zoom (mkTransform (k t0) (tx t0 + dx) (ty t0 + dy)) v
  | ClickZoomIn => zoomIn v
  | ClickZoomOut => zoomOut v
  | ClickResetZoom => resetZoom v
  end.

Definition handle_all (v : View) (inputs : list input) : View :=
  fold_left handle inputs v.


(** Input that goes through [zoom], not through a button. *)
Definition by_gesture (i : input) : bool :=
  match i with
  | Gesture _ _ _ | WheelStart _ _ _ | Pan _ _ => true
  | _ => false
  end.

End WithViewport.

(** The bound of the data model: [scale] within [[0.1, 10]]. *)
Definition within_extent (q : Q) : Prop := (1 # 10) <= q /\ q <= 10.

End Zoom.

(** ** LayoutEngine and InteractionController: ticks and drag handlers *)

Module Simulation.

Open Scope Q_scope.

(** The fields of a node object that d3-force and the drag handlers use. *)
Record Body : Type := mkBody {
  x : Q; y : Q;
  vx : Q; vy : Q;
  fx : option Q; fy : option Q      (* [None]: null or absent *)
}.

Record Sim : Type := mkSim {
  bodies : list Body;               (* graph.nodes, shared with the handlers *)
  alpha : Q;
  alphaTarget : Q
}.

Definition pins (b : Body) : option Q * option Q := (fx b, fy b).

Definition update (i : nat) (f : Body -> Body) (bs : list Body) : list Body :=
  match nth_error bs i with
  | Some b => firstn i bs ++ f b :: skipn (S i) bs
  | None => bs
  end.

Section WithForces.

(** The registered forces (link, charge, center, collision) run first in
    every tick. They rewrite velocities, and the centering force positions
    too, of any node, pinned or not; they never write [fx] or [fy].
    [forces a bs j] is the position and velocity they leave node [j] with.
    [velocityDecay] and [alphaDecay] are d3's constants. *)
Variable forces : Q -> list Body -> nat -> Q * Q * Q * Q.
Variables velocityDecay alphaDecay : Q.

Definition pushed (a : Q) (bs : list Body) (j : nat) (b : Body) : Body :=
  let '(x', y', vx', vy') := forces a bs j in
  mkBody x' y' vx' vy' (fx b) (fy b).

Fixpoint push_from (a : Q) (bs : list Body) (j : nat) (rest : list Body)
  : list Body :=
  match rest with
  | [] => []
  | b :: rest' => pushed a bs j b :: push_from a bs (S j) rest'
  end.

Definition apply_forces (a : Q) (bs : list Body) : list Body :=
  push_from a bs 0 bs.

(** d3-force, the position update that ends a tick:
    [if (node.fx == null) node.x += node.vx *= velocityDecay;
     else node.x = node.fx, node.vx = 0;] and the same for y. *)
Definition integrate (b : Body) : Body :=
  let '(x', vx') :=
    match fx b with
    | None => (x b + vx b * velocityDecay, vx b * velocityDecay)
    | Some f => (f, 0)
    end in
  let '(y', vy') :=
    match fy b with
    | None => (y b + vy b * velocityDecay, vy b * velocityDecay)
    | Some f => (f, 0)
    end in
  mkBody x' y' vx' vy' (fx b) (fy b).

Definition tick (s : Sim) : Sim :=
  let a := alpha s + (alphaTarget s - alpha s) * alphaDecay in
  mkSim (map integrate (apply_forces a (bodies s))) a (alphaTarget s).

(** The drag handlers of lines 170-185, on the node of index [i], for a
    single pointer ([event.active] is 0) and a running simulation. *)
Definition drag_start (i : nat) (s : Sim) : Sim :=
  mkSim (update i (fun d => mkBody (x d) (y d) (vx d) (vy d)
                                   (Some (x d)) (Some (y d))) (bodies s))
        (alpha s) (3 # 10).

Definition drag_move (i : nat) (ex ey : Q) (s : Sim) : Sim :=
  mkSim (update i (fun d => mkBody (x d) (y d) (vx d) (vy d)
                                   (Some ex) (Some ey)) (bodies s))
        (alpha s) (alphaTarget s).

Definition drag_end (i : nat) (s : Sim) : Sim :=
  mkSim (update i (fun d => mkBody (x d) (y d) (vx d) (vy d) None None)
                (bodies s))
        (alpha s) 0.

(** What can happen between drag start and drag end of node [i]. *)
Inductive during_drag : Type :=
| Tick
| Move (ex ey : Q).

Definition drag_step (i : nat) (s : Sim) (e : during_drag) : Sim :=
  match e with
  | Tick => tick s
  | Move ex ey => drag_move i ex ey s
  end.

Definition drag_run (i : nat) (s : Sim) (es : list during_drag) : Sim :=
  fold_left (drag_step i) es s.

End WithForces.

Definition position (i : nat) (s : Sim) : option (Q * Q) :=
  option_map (fun b => (x b, y b)) (nth_error (bodies s) i).

Definition pinned (i : nat) (s : Sim) : option (option Q * option Q) :=
  option_map pins (nth_error (bodies s) i).

(** Where the pointer last put the node: the drag-start position until the
    first move. *)
Definition last_pointer (start : Q * Q) (es : list during_drag) : Q * Q :=
  fold_left (fun p e => match e with
                        | Tick => p
                        | Move ex ey => (ex, ey)
                        end) es start.

(** A sample force for examples: every node is dragged one unit to the
    right and gains one unit of horizontal velocity. *)
Definition sample_forces (a : Q) (bs : list Body) (j : nat) : Q * Q * Q * Q :=
  match nth_error bs j with
  | Some b => (x b + 1, y b, vx b + 1, vy b)
  | None => (0, 0, 0, 0)
  end.

Definition sample_sim : Sim :=
  mkSim [mkBody 0 0 0 0 None None; mkBody 10 20 1 1 None None] 1 0.

End Simulation.

(** ** GraphSession: the mount effect, [initializeD3] and the resize
       observer *)

Module Lifecycle.

Record Page : Type := mkPage {
  clientWidth : Z;                  (* of containerRef.current *)
  clientHeight : Z;
  graphRef : Graph;
  svgRef : option (list Circle);
  simulationRef : bool;
  resizeObserverRef : bool;         (* an observer watches the container *)
  containerReady : bool;
  error : option string;
  log : list string                 (* the logger's info, warn and error
                                       lines, oldest first *)
}.

Definition emptyGraph : Graph := mkGraph [] [].

Definition logger (line : string) (p : Page) : Page :=
  mkPage (clientWidth p) (clientHeight p) (graphRef p) (svgRef p)
         (simulationRef p) (resizeObserverRef p) (containerReady p)
         (error p) (log p ++ [line]).

Definition setError (e : option string) (p : Page) : Page :=
  mkPage (clientWidth p) (clientHeight p) (graphRef p) (svgRef p)
         (simulationRef p) (resizeObserverRef p) (containerReady p)
         e (log p).

Definition setContainerReady (b : bool) (p : Page) : Page :=
  mkPage (clientWidth p) (clientHeight p) (graphRef p) (svgRef p)
         (simulationRef p) (resizeObserverRef p) b (error p) (log p).

Definition set_graphRef (g : Graph) (p : Page) : Page :=
  mkPage (clientWidth p) (clientHeight p) g (svgRef p)
         (simulationRef p) (resizeObserverRef p) (containerReady p)
         (error p) (log p).

Definition set_svgRef (cs : list Circle) (p : Page) : Page :=
  mkPage (clientWidth p) (clientHeight p) (graphRef p) (Some cs)
         (simulationRef p) (resizeObserverRef p) (containerReady p)
         (error p) (log p).

Definition set_simulationRef (p : Page) : Page :=
  mkPage (clientWidth p) (clientHeight p) (graphRef p) (svgRef p)
         true (resizeObserverRef p) (containerReady p) (error p) (log p).

Definition setupResizeObserver (p : Page) : Page :=
  mkPage (clientWidth p) (clientHeight p) (graphRef p) (svgRef p)
         (simulationRef p) true (containerReady p) (error p) (log p).

Definition resize_container (w h : Z) (p : Page) : Page :=
  mkPage w h (graphRef p) (svgRef p) (simulationRef p)
         (resizeObserverRef p) (containerReady p) (error p) (log p).

Definition msg_postponed : string :=
  "Container has zero dimensions, postponing D3 initialization".

Definition msg_initialized : string :=
  "D3 renderer initialized successfully".

(** d3's [forceLink] resolves every endpoint that is not already an object
    through the node ids and throws "node not found" when one is missing. *)
Definition endpoint_found (g : Graph) (v : jsval) : bool :=
  match v with
  | JObj _ | JArr _ => true
  | JStr s => existsb (String.eqb s) (node_ids g)
  | _ => false
  end.

Definition links_resolve (g : Graph) : bool :=
  forallb (fun e => endpoint_found g (edge_source e)
                    && endpoint_found g (edge_target e)) (edges g).

Section WithEnvironment.

Variable random : nat -> Q.
Variable coerce : jsval -> jsnum.
Variable illicitAddresses : list IllicitFlag.

(** [initializeD3(graph)], lines 80-249, with the container mounted and
    every tooltip built without error; [Renderer.initializeD3] is the
    function with these two tests. The boolean says whether an svg was
    returned. *)
Definition initializeD3 (g : Graph) (p : Page) : Page * bool :=
  if (clientWidth p =? 0)%Z || (clientHeight p =? 0)%Z then
    (logger msg_postponed p, false)
  else
    let p1 := set_svgRef (draw_circles coerce illicitAddresses g) p in
    if links_resolve g then
      (logger msg_initialized (setContainerReady true (set_simulationRef p1)),
       true)
    else
      (setError (Some "Renderer initialization failed")
         (logger "Failed to initialize D3 renderer" p1), false).

(** [containerRef.current] is set: the container is part of what the
    component last rendered, which is the error panel instead (line 602)
    while [error] is set. *)
Definition container_mounted (p : Page) : bool :=
  match error p with
  | None => true
  | Some _ => false
  end.

(** The effect of lines 521-536, run when [graphData] is set or replaced,
    with [render] for [initializeD3]. The container is what the last
    render left: [setError(null)] shows only in the next one. *)
Definition mount_with (render : bool -> Graph -> Page -> Page * bool)
  (graphData : jsval) (p : Page) : Page :=
  if negb (truthy graphData) then p
  else
    let container := container_mounted p in
    let p1 := setContainerReady false (setError None p) in
    match initializeGraph random container graphData with
    | Built g =>
        let p2 := logger "Graph initialized successfully" (set_graphRef g p1) in
        let '(p3, ok) := render container g p2 in
        if ok then setupResizeObserver p3 else p3
    | NoGraph => p1
    | BuildFailed =>
        setError (Some "Graph initialization failed")
          (logger "Failed to initialize graph" p1)
    end.

Definition mount (graphData : jsval) (p : Page) : Page :=
  mount_with (fun _ => initializeD3) graphData p.

(** The cleanup the mount effect returns, lines 537-552: the observer is
    disconnected, the svg removed from the page, the simulation stopped and
    [graphRef] emptied. [svgRef.current] keeps the detached selection. *)
Definition cleanup (p : Page) : Page :=
  mkPage (clientWidth p) (clientHeight p) emptyGraph (svgRef p)
         false false (containerReady p) (error p) (log p).

(** The container changes size; the observer's callback of line 254 runs if
    an observer is watching. *)
Definition resize (w h : Z) (p : Page) : Page :=
  let p1 := resize_container w h p in
  if resizeObserverRef p1 then fst (initializeD3 (graphRef p1) p1) else p1.

Inductive event : Type :=
| Mount (graphData : jsval)
| Resize (w h : Z).

(** Before the effect runs again React runs the cleanup the previous run
    returned; on a page no effect has touched the cleanup changes
    nothing. *)
Definition step (p : Page) (e : event) : Page :=
  match e with
  | Mount graphData => mount graphData (cleanup p)
  | Resize w h => resize w h p
  end.

Definition run (p : Page) (tr : list event) : Page := fold_left step tr p.

End WithEnvironment.

(** A freshly rendered component whose container measures [w] by [h]. *)
Definition fresh (w h : Z) : Page :=
  mkPage w h emptyGraph None false false false None [].

(** How often the renderer has been initialized. *)
Definition initializations (p : Page) : nat :=
  List.length (filter (String.eqb msg_initialized) (log p)).

End Lifecycle.

(** ** [initializeD3] with its container test and its tooltips *)

Module Renderer.

Import Lifecycle.

Section WithEnvironment.

Variable random : nat -> Q.
Variable coerce : jsval -> jsnum.
Variable illicitAddresses : list IllicitFlag.

Definition sized (p : Page) : bool :=
  negb ((clientWidth p =? 0)%Z || (clientHeight p =? 0)%Z).

(** [initializeD3(graph)], lines 80-249. Without a container nothing
    happens (line 81). The tooltips are built after the circles are drawn
    and before the simulation is created: a tooltip that throws leaves the
    new svg in [svgRef] and ends in the [catch]. *)
Definition initializeD3 (container : bool) (g : Graph) (p : Page)
  : Page * bool :=
  if negb container then (p, false)
  else if sized p
          && existsb (tooltip_throws coerce illicitAddresses) (nodes g)
  then
    (setError (Some "Renderer initialization failed")
       (logger "Failed to initialize D3 renderer"
          (set_svgRef (draw_circles coerce illicitAddresses g) p)), false)
  else Lifecycle.initializeD3 coerce illicitAddresses g p.

(** The effect of lines 521-536. *)
Definition mount (graphData : jsval) (p : Page) : Page :=
  mount_with random initializeD3 graphData p.

End WithEnvironment.

(** The fields of the nodes and edges that the attribute callbacks, the
    tooltip and d3-force turn into text or numbers are strings, numbers,
    booleans or null, as a wallet graph has them: converting an object can
    throw, which [coerce] does not model. *)
Definition plain_entries (fs : list (string * jsval)) : bool :=
  forallb (fun kv => is_primitive_value (snd kv)) fs.

Definition plain_fields (g : Graph) : bool :=
  forallb (fun d => is_primitive_value (node_label d)
                    && is_primitive_value (node_color d)
                    && is_primitive_value (node_x d)
                    && is_primitive_value (node_y d)
                    && plain_entries (node_attrs d)) (nodes g)
  && forallb (fun e => is_primitive_value (edge_color e)
                       && plain_entries (edge_attrs e)) (edges g).

(** The same for the parts of a flag the tooltip turns into text or
    numbers: [confidence] and the items joined from [sources] and
    [risk_indicators]. *)
Definition plain_items (v : jsval) : bool :=
  match v with
  | JArr items => forallb is_primitive_value items
  | _ => true
  end.

Definition plain_flags (illicitAddresses : list IllicitFlag) : bool :=
  forallb (fun illicit =>
             is_primitive_value (confidence illicit)
             && plain_items (sources illicit)
             && plain_items (get "risk_indicators"
                               (illicit_activity_analysis illicit)))
          illicitAddresses.

(** The component state the toolbar handlers see once the effect has run:
    the refs and [containerReady] and [error] as the effect left them, the
    other pieces of state at their initial values. *)
Definition session (p : Page) : Overlay.State :=
  Overlay.mkState (graphRef p) (svgRef p) (simulationRef p) false false
                  (containerReady p) (error p) None [] 0.

End Renderer.

(** ** The rest of the component

    Link attributes of [initializeD3], the request body and the result
    panel of the community detection, the fullscreen handlers, what the
    host can do to a mounted component, and the toolbar. *)

Module Links.

(** Property read [d.k] on a built edge: the fixed properties come from the
    record, the others from the spread, as for nodes. The link callbacks
    run at the data join, before the link force replaces endpoints. *)
Definition edge_get (k : string) (e : VisualEdge) : jsval :=
  if k =? "source" then edge_source e
  else if k =? "target" then edge_target e
  else if k =? "weight" then edge_weight e
  else if k =? "color" then edge_color e
  else if k =? "size" then edge_size e
  else if k =? "type" then edge_type e
  else lookup k (edge_attrs e).

Section WithCoercion.

Variable coerce : jsval -> jsnum.

(** [Math.max(1, Math.min(5, (d.value || 0) / 100000000)) || 1], line 127 *)
Definition linkStrokeWidth (e : VisualEdge) : jsval :=
  or_else
    (JNumber
       (math_max (Num 1)
          (math_min (Num 5)
             (num_div (to_number coerce (or_else (edge_get "value" e) (JNum 0)))
                      (Num 100000000)))))
    (JNum 1).

End WithCoercion.

(** The [stroke] callback of the links, lines 128-132. *)
Definition linkStroke (e : VisualEdge) : paint :=
  if strict_eq (edge_get "direction" e) (JStr "incoming") then hex "#10b981"
  else if strict_eq (edge_get "direction" e) (JStr "outgoing") then hex "#ef4444"
  else Plain (or_else (edge_get "color" e) (JStr "#94a3b8")).

(** A value that is not falsy and not an array: calling [filter] on it
    throws. *)
Definition is_array (v : jsval) : bool :=
  match v with
  | JArr _ => true
  | _ => false
  end.

Definition not_a_list (v : jsval) : bool := truthy v && negb (is_array v).

End Links.

Import Links.

Module Request.

(** [typeof v === 'object' ? v.id : v]. Once the link force has run, a
    resolved endpoint is the node object of that id, and reading its [id]
    gives the id back. *)
Definition endpoint_id (v : jsval) : jsval :=
  match v with
  | JObj _ | JArr _ | JNull => get "id" v
  | _ => v
  end.

(** Lines 289-293. *)
Definition request_node (n : VisualNode) : jsval :=
  JObj [("id", node_get "id" n);
        ("label", or_else (node_get "label" n) (node_get "id" n));
        ("type", or_else (node_get "type" n) (JStr "unknown"))].

(** Lines 294-298. *)
Definition request_edge (e : VisualEdge) : jsval :=
  JObj [("source", endpoint_id (edge_get "source" e));
        ("target", endpoint_id (edge_get "target" e));
        ("value", or_else (edge_get "weight" e)
                    (or_else (edge_get "value" e) (JNum 1)))].

(** The [graphData] object of [runLouvainAlgorithm], lines 288-300. *)
Definition request_body (g : Graph) : jsval :=
  JObj [("nodes", JArr (map request_node (nodes g)));
        ("edges", JArr (map request_edge (edges g)));
        ("resolution", JNum 1)].

End Request.

Module Panel.

(** [Object.values(v)] on a value read from JSON. *)
Fixpoint characters (s : string) : list jsval :=
  match s with
  | EmptyString => []
  | String c rest => JStr (String c EmptyString) :: characters rest
  end.

Definition values (v : jsval) : list jsval :=
  match v with
  | JObj fs => map snd fs
  | JArr items => items
  | JStr s => characters s
  | _ => []
  end.

Definition of_nat (n : nat) : jsval := JNum (inject_Z (Z.of_nat n)).

(** [community.length] on a value read from JSON: [None] is the TypeError
    of reading from null or undefined. *)
Definition length_of (v : jsval) : option jsval :=
  match v with
  | JUndefined | JNull => None
  | JArr items => Some (of_nat (List.length items))
  | JStr s => Some (of_nat (String.length s))
  | JObj fs => Some (lookup "length" fs)
  | _ => Some JUndefined
  end.

Definition is_primitive (v : jsval) : bool :=
  match v with
  | JArr _ | JObj _ | JFun => false
  | _ => true
  end.

Section WithCoercion.

Variable coerce : jsval -> jsnum.

(** [a > b] when an operand is an array or an object goes through
    ToPrimitive and is left to the caller. *)
Variable object_gt : jsval -> jsval -> bool.

(** [a > b]: two strings compare as strings, other primitives as
    numbers. *)
Definition js_gt (a b : jsval) : bool :=
  if is_primitive a && is_primitive b then
    match a, b with
    | JStr x, JStr y => String.ltb y x
    | _, _ =>
        match to_number coerce a, to_number coerce b with
        | Num x, Num y => negb (Qle_bool x y)
        | _, _ => false
        end
    end
  else object_gt a b.

(** The reducer of line 649. *)
Definition larger (acc : option jsval) (community : jsval) : option jsval :=
  match acc with
  | None => None
  | Some max =>
      match length_of community with
      | None => None
      | Some len => Some (if js_gt len max then len else max)
      end
  end.

(** [largestCommunity], lines 647-651, for the [communities] state
    ([None]: null). The result is [None] when the render throws. *)
Definition largestCommunity (communities : option jsval) : option jsval :=
  match communities with
  | None => Some JNull
  | Some c =>
      if truthy (get "communities" c)
      then fold_left larger (values (get "communities" c)) (Some (JNum 0))
      else Some JNull
  end.

End WithCoercion.

(** [communities?.num_communities || 0], line 643 *)
Definition totalCommunities (communities : option jsval) : jsval :=
  match communities with
  | None => JNum 0
  | Some c => or_else (get "num_communities" c) (JNum 0)
  end.

End Panel.

Module Fullscreen.

(** [document.fullscreenElement] being set, the React state
    [isFullscreen], and the error toasts shown. *)
Record Screen : Type := mkScreen {
  fullscreenElement : bool;
  isFullscreen : bool;
  notices : list string
}.

Definition windowed : Screen := mkScreen false false [].

(** How the host settles [requestFullscreen()] or [exitFullscreen()]. When
    it resolves, the host has switched the mode and fires
    [fullscreenchange]; when it rejects, the mode is as before. *)
Inductive reply : Type :=
| Resolves
| Rejects.

(** [handleFullscreenChange], line 557 (the re-render it schedules is
    [Teardown.fullscreen_timer]). *)
Definition handleFullscreenChange (s : Screen) : Screen :=
  mkScreen (fullscreenElement s) (fullscreenElement s) (notices s).

(** [toggleFullscreen], lines 499-519, with the wrapper mounted. *)
Definition toggleFullscreen (r : reply) (s : Screen) : Screen :=
  if negb (fullscreenElement s) then
    match r with
    | Resolves => handleFullscreenChange (mkScreen true true (notices s))
    | Rejects =>
        mkScreen (fullscreenElement s) (isFullscreen s)
                 (notices s ++ ["Failed to enter fullscreen mode"])
    end
  else
    match r with
    | Resolves => handleFullscreenChange (mkScreen false false (notices s))
    | Rejects =>
        mkScreen (fullscreenElement s) (isFullscreen s)
                 (notices s ++ ["Failed to exit fullscreen mode"])
    end.

(** [handleKeyDown] on the Escape key, lines 570-579. *)
Definition handleEscape (r : reply) (s : Screen) : Screen :=
  if fullscreenElement s then
    match r with
    | Resolves => handleFullscreenChange (mkScreen false false (notices s))
    | Rejects => s
    end
  else s.

(** [ClickToggle]: the button sits in the toolbar, which is rendered only
    while [isFullscreen] is false (that it is also disabled until the
    container is ready is not part of this state). [HostLeaves]: the host
    ends fullscreen on its own and fires [fullscreenchange]. *)
Inductive event : Type :=
| ClickToggle (r : reply)
| PressEscape (r : reply)
| HostLeaves.

Definition step (s : Screen) (e : event) : Screen :=
  match e with
  | ClickToggle r => if isFullscreen s then s else toggleFullscreen r s
  | PressEscape r => handleEscape r s
  | HostLeaves =>
      handleFullscreenChange (mkScreen false (isFullscreen s) (notices s))
  end.

Definition run (s : Screen) (tr : list event) : Screen := fold_left step tr s.

End Fullscreen.

Module Teardown.

Import Lifecycle.

Section WithEnvironment.

Variable coerce : jsval -> jsnum.
Variable illicitAddresses : list IllicitFlag.

(** The timer [handleFullscreenChange] sets when an svg exists, lines
    559-566, taken together with the test that guards it. *)
Definition fullscreen_timer (p : Page) : Page :=
  match svgRef p with
  | Some _ => fst (initializeD3 coerce illicitAddresses (graphRef p) p)
  | None => p
  end.

(** What the host can do to a mounted component without new data. *)
Inductive host_event : Type :=
| HostResize (w h : Z)
| HostFullscreenChange.

Definition host_step (p : Page) (e : host_event) : Page :=
  match e with
  | HostResize w h => resize coerce illicitAddresses w h p
  | HostFullscreenChange => fullscreen_timer p
  end.

Definition host_run (p : Page) (tr : list host_event) : Page :=
  fold_left host_step tr p.

End WithEnvironment.

End Teardown.

Module Toolbar.

(** The component as the user meets it: the state the handlers work on and
    the [isFullscreen] flag. A change of the flag comes with a
    [fullscreenchange] event, which draws the graph anew
    ([Teardown.fullscreen_timer]); within the sessions below the flag is
    fixed. *)
Record Desk : Type := mkDesk {
  state : State;
  isFullscreen : bool
}.

Definition with_state (s : State) (d : Desk) : Desk :=
  mkDesk s (isFullscreen d).

Definition set_graph (g : Graph) (s : State) : State :=
  mkState g (svg s) (simulation s) (isLoading s) (layoutRunning s)
          (containerReady s) (error s) (communities s) (toasts s) (fetches s).

(** The buttons of the toolbar, lines 655-748, but for the fullscreen
    toggle. [Reset] carries the draws of its run of [resetGraph]; [Export]
    carries whether [saveSvgAsPng] throws. *)
Inductive button : Type :=
| RunLayout
| RunLouvain
| Reset (random : nat -> Q)
| Export (throws : bool)
| ZoomIn
| ResetZoom
| ZoomOut.

(** [disabled=...], lines 661, 675, 689, 699, 712, 721 and 730. *)
Definition enabled (b : button) (s : State) : bool :=
  match b with
  | RunLayout =>
      negb (isLoading s || layoutRunning s || negb (containerReady s))
  | RunLouvain | Reset _ | Export _ =>
      negb (isLoading s || negb (containerReady s))
  | ZoomIn | ResetZoom | ZoomOut => containerReady s
  end.

Section WithEnvironment.

Variable coerce : jsval -> jsnum.
Variable inherited : realm.
Variable graphData : jsval.

(** The toolbar is part of the render only with graph data (line 590),
    without an error (line 602) and outside fullscreen (line 655). *)
Definition toolbar_shown (d : Desk) : bool :=
  truthy graphData
  && match error (state d) with
     | None => true
     | Some _ => false
     end
  && negb (isFullscreen d).

(** [resetGraph], lines 393-443: the graph is built again from the
    payload and put in [graphRef]; nothing is drawn. *)
Definition resetGraph (random : nat -> Q) (s : State) : State :=
  if is_nullish graphData then setError "Graph initialization failed" s
  else
    match as_list (get "nodes" graphData), as_list (get "edges" graphData) with
    | Some rawNodes, Some rawEdges =>
        set_graph {| nodes := build_nodes random (filter keep_node rawNodes) 0;
                     edges := map build_edge (filter keep_edge rawEdges) |} s
    | _, _ => setError "Graph initialization failed" s
    end.

(** [exportAsImage], lines 445-467. *)
Definition exportAsImage (throws : bool) (s : State) : State :=
  match svg s with
  | None => s
  | Some _ => if throws then setError "Image export failed" s else s
  end.

(** The zoom buttons work on the zoom transform of the svg ([Zoom]) and
    leave this state alone. *)
Definition onClick (b : button) (s : State) : State :=
  match b with
  | RunLayout => runForceAtlas2 s
  | RunLouvain => runLouvainAlgorithm s
  | Reset random => resetGraph random s
  | Export throws => exportAsImage throws s
  | ZoomIn | ResetZoom | ZoomOut => s
  end.

(** A press of a toolbar button, and the events of [Overlay.event] that
    are not presses. Resizes and fullscreen changes (the fullscreen toggle
    with them), which run [initializeD3] again, and the ticks of the
    simulation, which move the nodes, are not among them. *)
Inductive ui_event : Type :=
| Press (b : button)
| Settles (req : nat) (o : fetch_outcome)
| Timer
| Timeout.

Definition ui_step (d : Desk) (e : ui_event) : Desk :=
  match e with
  | Press b =>
      if toolbar_shown d && enabled b (state d)
      then with_state (onClick b (state d)) d else d
  | Settles _ o =>
      with_state (runLouvainAlgorithm_resume coerce inherited o (state d)) d
  | Timer => with_state (runForceAtlas2 (state d)) d
  | Timeout => with_state (layout_timeout (state d)) d
  end.

Definition ui_run (d : Desk) (tr : list ui_event) : Desk :=
  fold_left ui_step tr d.

(** The one event that sends a request: a press of Run Louvain on a
    rendered, enabled button over a graph with nodes and edges. *)
Definition sends_request (d : Desk) (e : ui_event) : bool :=
  match e with
  | Press RunLouvain =>
      toolbar_shown d && enabled RunLouvain (state d)
      && negb (Nat.eqb (List.length (nodes (graph (state d)))) 0)
      && negb (Nat.eqb (List.length (edges (graph (state d)))) 0)
  | _ => false
  end.

Definition is_reset (e : ui_event) : bool :=
  match e with
  | Press (Reset _) => true
  | _ => false
  end.

End WithEnvironment.

(** What a circle stands for and how large it is. *)
Definition shape (c : Circle) : VisualNode * jsval := (datum c, attr_r c).

End Toolbar.

(** * Properties *)

(** ** Clamping *)

Module NumFacts.

Lemma qmax_bounds (lo q : Q) : (lo <= qmax lo q)%Q.
Proof.
  unfold qmax. destruct (Qle_bool lo q) eqn:H.
  - apply Qle_bool_iff; exact H.
  - apply Qle_refl.
Qed.

Lemma qmax_qmin_upper (lo hi q : Q) :
  (lo <= hi)%Q -> (qmax lo (qmin hi q) <= hi)%Q.
Proof.
  intros Hlh. unfold qmax, qmin.
  destruct (Qle_bool hi q) eqn:H1.
  - destruct (Qle_bool lo hi); [apply Qle_refl | exact Hlh].
  - assert (Hq : (q <= hi)%Q).
    { destruct (Qlt_le_dec q hi) as [Hlt|Hge].
      - apply Qlt_le_weak; exact Hlt.
      - apply Qle_bool_iff in Hge. congruence. }
    destruct (Qle_bool lo q); [exact Hq | exact Hlh].
Qed.

End NumFacts.

(** ** The graph builder *)

Module BuilderFacts.

Lemma initializeGraph_built (random : nat -> Q) (container : bool)
  (graphData : jsval) (g : Graph) :
  initializeGraph random container graphData = Built g ->
  exists rawNodes rawEdges,
    as_list (get "nodes" graphData) = Some rawNodes
    /\ as_list (get "edges" graphData) = Some rawEdges
    /\ nodes g = build_nodes random (filter keep_node rawNodes) 0
    /\ edges g = map build_edge (filter keep_edge rawEdges).
Proof.
  unfold initializeGraph.
  destruct (negb (truthy graphData) || negb container); [discriminate|].
  destruct (as_list (get "nodes" graphData)) as [rawNodes|]; [|discriminate].
  destruct (as_list (get "edges" graphData)) as [rawEdges|]; [|discriminate].
  intros H; injection H as <-.
  exists rawNodes, rawEdges; repeat split; reflexivity.
Qed.

(** Every edge of a built graph is the image of a raw edge that passed the
    edge filter. *)
Lemma built_edge_origin (random : nat -> Q) (container : bool)
  (graphData : jsval) (g : Graph) (e : VisualEdge) :
  initializeGraph random container graphData = Built g ->
  In e (edges g) ->
  exists rawEdges raw,
    as_list (get "edges" graphData) = Some rawEdges
    /\ In raw rawEdges /\ keep_edge raw = true /\ e = build_edge raw.
Proof.
  intros Hb Hin.
  destruct (initializeGraph_built _ _ _ _ Hb)
    as (rawNodes & rawEdges & _ & Hes & _ & Hedges).
  rewrite Hedges in Hin. apply in_map_iff in Hin.
  destruct Hin as (raw & <- & Hraw). apply filter_In in Hraw.
  destruct Hraw as [Hraw Hkeep].
  exists rawEdges, raw; auto.
Qed.

Lemma keep_edge_true (e : jsval) :
  keep_edge e = true ->
  truthy (get "source" e) = true /\ truthy (get "target" e) = true
  /\ strict_eq (get "source" e) (get "target" e) = false.
Proof.
  unfold keep_edge. intros H.
  apply andb_prop in H; destruct H as [H Hne].
  apply andb_prop in H; destruct H as [H Ht].
  apply andb_prop in H; destruct H as [_ Hs].
  apply negb_true_iff in Hne. auto.
Qed.

(** Every node of a built graph is the image of some raw node. *)
Lemma build_nodes_origin (random : nat -> Q) (ns : list jsval) :
  forall (k : nat) (d : VisualNode),
    In d (build_nodes random ns k) ->
    exists n k', In n ns /\ d = fst (build_node random n k').
Proof.
  induction ns as [|n rest IH]; intros k d Hin; simpl in Hin; [contradiction|].
  destruct (build_node random n k) as [v k'] eqn:Hb.
  destruct Hin as [<-|Hin].
  - exists n, k. rewrite Hb. split; [left; reflexivity | reflexivity].
  - destruct (IH _ _ Hin) as (n' & k'' & Hn' & ->).
    exists n', k''. split; [right; assumption | reflexivity].
Qed.

Lemma build_node_fixed (random : nat -> Q) (n : jsval) (k : nat) :
  let d := fst (build_node random n k) in
  node_type d = JStr "circle" /\ node_size d = JNum 8
  /\ node_color d = or_else (get "color" n) (JStr "#6366f1").
Proof.
  unfold build_node.
  destruct (coord random (get "x" n) k) as [x k1].
  destruct (coord random (get "y" n) k1) as [y k2].
  simpl. auto.
Qed.

(** The exclusion list keeps the fixed property names out of the spread. *)
Lemma passthrough_excluded (exclude : list string) (key : string)
  (fs : list (string * jsval)) :
  includes exclude key = true -> lookup key (passthrough exclude fs) = JUndefined.
Proof.
  intros Hex. induction fs as [|[k' v] rest IH]; simpl; [reflexivity|].
  destruct (negb (includes exclude k')) eqn:Hk'; simpl.
  - destruct (negb (strict_eq v JUndefined) && negb (strict_eq v JNull)
              && negb (is_function v)); simpl; [|exact IH].
    destruct (k' =? key) eqn:Hkk; [|exact IH].
    apply String.eqb_eq in Hkk; subst k'.
    rewrite Hex in Hk'. discriminate.
  - exact IH.
Qed.

(** C1, as the spec words it, fails: an edge whose target names no node
    survives the builder. Input: nodes [{id:"A"}], edges
    [{source:"A", target:"B"}]. *)
Lemma dangling_edge_survives :
  exists g e,
    initializeGraph zero_random true
      (payload [obj_id "A"] [raw_edge "A" "B"]) = Built g
    /\ In e (edges g) /\ ~ edge_resolved g e.
Proof.
  eexists; eexists; split; [reflexivity|]. split; [left; reflexivity|].
  intros (s & t & _ & Ht & _ & _ & Hin).
  simpl in Ht. injection Ht as <-.
  simpl in Hin. destruct Hin as [H|[]]. discriminate.
Qed.

(** C1 (amended): every edge of a built graph has a truthy source and a
    truthy target that are not strictly equal; in particular two string
    endpoints are different ids, so self-loops are dropped. Whether an
    endpoint names a retained node is not checked. *)
Theorem built_edges_have_distinct_endpoints (random : nat -> Q)
  (container : bool) (graphData : jsval) (g : Graph) (e : VisualEdge) :
  initializeGraph random container graphData = Built g ->
  In e (edges g) ->
  truthy (edge_source e) = true /\ truthy (edge_target e) = true
  /\ strict_eq (edge_source e) (edge_target e) = false
  /\ (forall s t, edge_source e = JStr s -> edge_target e = JStr t -> s <> t).
Proof.
  intros Hb Hin.
  destruct (built_edge_origin _ _ _ _ _ Hb Hin) as (es & raw & _ & _ & Hk & ->).
  destruct (keep_edge_true _ Hk) as (Hs & Ht & Hne).
  simpl. repeat split; auto.
  intros s t Es Et Heq. rewrite Es, Et in Hne. simpl in Hne.
  subst t. rewrite String.eqb_refl in Hne. discriminate.
Qed.

Lemma built_edges_have_distinct_endpoints_witness :
  let e := build_edge (raw_edge "A" "B") in
  truthy (edge_source e) = true /\ truthy (edge_target e) = true
  /\ strict_eq (edge_source e) (edge_target e) = false
  /\ (forall s t, edge_source e = JStr s -> edge_target e = JStr t -> s <> t).
Proof.
  apply (built_edges_have_distinct_endpoints zero_random true
           (payload [obj_id "A"; obj_id "B"]
                    [raw_edge "A" "B"; raw_edge "A" "A"])
           {| nodes := build_nodes zero_random [obj_id "A"; obj_id "B"] 0;
              edges := [build_edge (raw_edge "A" "B")] |}).
  - reflexivity.
  - simpl. left. reflexivity.
Defined.

(** The spec's scenario: a self-loop on the only node leaves one node and
    no edge. *)
Example self_loop_dropped :
  exists d,
    initializeGraph zero_random true (payload [obj_id "A"] [raw_edge "A" "A"])
    = Built {| nodes := [d]; edges := [] |}.
Proof. eexists. reflexivity. Qed.

(** C10, as worded, fails: a truthy weight below 1 is kept. Input: nodes
    [{id:"A"},{id:"B"}], edges [{source:"A", target:"B", weight:0.5}]. *)
Lemma small_weight_is_kept :
  exists g e,
    initializeGraph zero_random true
      (payload [obj_id "A"; obj_id "B"]
               [JObj [("source", JStr "A"); ("target", JStr "B");
                      ("weight", JNum (1 # 2))]]) = Built g
    /\ In e (edges g) /\ ~ weight_at_least_one e.
Proof.
  eexists; eexists; split; [reflexivity|]. split; [left; reflexivity|].
  intros (q & Hq & Hle). simpl in Hq. unfold or_else, JNum in Hq. simpl in Hq.
  injection Hq as <-. revert Hle. unfold Qle. simpl. lia.
Qed.

Lemma truthy_number_nonzero (q : Q) :
  truthy (JNum q) = true -> ~ (q == 0)%Q.
Proof.
  simpl. intros H Hz. apply negb_true_iff in H.
  apply Qeq_bool_iff in Hz. congruence.
Qed.

Lemma or_else_truthy (a b : jsval) :
  truthy b = true -> truthy (or_else a b) = true.
Proof. unfold or_else. destruct (truthy a) eqn:Ha; auto. Qed.

(** C10 (amended): every edge weight of a built graph is truthy. It is the
    raw edge's weight when that is truthy and 1 otherwise, so a missing,
    null, zero or otherwise falsy weight becomes 1 and no edge has weight
    zero; a truthy weight is kept as given, whatever its size. *)
Theorem built_edge_weight_defaulted (random : nat -> Q) (container : bool)
  (graphData : jsval) (g : Graph) (e : VisualEdge) :
  initializeGraph random container graphData = Built g ->
  In e (edges g) ->
  truthy (edge_weight e) = true
  /\ (forall q, edge_weight e = JNum q -> ~ (q == 0)%Q)
  /\ exists rawEdges raw,
       as_list (get "edges" graphData) = Some rawEdges /\ In raw rawEdges
       /\ edge_weight e =
            if truthy (get "weight" raw) then get "weight" raw else JNum 1.
Proof.
  intros Hb Hin.
  destruct (built_edge_origin _ _ _ _ _ Hb Hin)
    as (rawEdges & raw & Hes & Hraw & _ & ->).
  assert (Ht : truthy (edge_weight (build_edge raw)) = true)
    by (simpl; apply or_else_truthy; reflexivity).
  split; [exact Ht|]. split.
  - intros q Hq. rewrite Hq in Ht. apply truthy_number_nonzero; exact Ht.
  - exists rawEdges, raw. repeat split; auto.
Qed.

Lemma built_edge_weight_defaulted_witness :
  let e := build_edge (JObj [("source", JStr "A"); ("target", JStr "B");
                             ("weight", JNum 0)]) in
  edge_weight e = JNum 1 /\ truthy (edge_weight e) = true.
Proof.
  split; [reflexivity|].
  apply (built_edge_weight_defaulted zero_random true
           (payload [obj_id "A"; obj_id "B"]
                    [JObj [("source", JStr "A"); ("target", JStr "B");
                           ("weight", JNum 0)]])
           {| nodes := build_nodes zero_random [obj_id "A"; obj_id "B"] 0;
              edges := [build_edge (JObj [("source", JStr "A");
                                          ("target", JStr "B");
                                          ("weight", JNum 0)])] |}).
  - reflexivity.
  - simpl. left. reflexivity.
Defined.

(** Whatever kind the payload announces, a built node is of type "circle"
    with size 8: [type] and [size] are on the exclusion list and the object
    literal sets them itself. *)
Lemma built_node_fixed (random : nat -> Q) (container : bool)
  (graphData : jsval) (g : Graph) (d : VisualNode) :
  initializeGraph random container graphData = Built g ->
  In d (nodes g) ->
  node_type d = JStr "circle" /\ node_size d = JNum 8.
Proof.
  intros Hb Hin.
  destruct (initializeGraph_built _ _ _ _ Hb) as (ns & es & _ & _ & Hn & _).
  rewrite Hn in Hin.
  destruct (build_nodes_origin _ _ _ _ Hin) as (n & k' & _ & ->).
  destruct (build_node_fixed random n k') as (Ht & Hs & _). auto.
Qed.

End BuilderFacts.

(** ** Node colour and radius at render time *)

Module RenderFacts.

Import NumFacts BuilderFacts.

(** First precedence inside [initializeD3]: a flagged node gets the flagged
    fill and stroke whatever its kind. *)
Lemma flagged_node_drawn_red (coerce : jsval -> jsnum)
  (illicitAddresses : list IllicitFlag) (d : VisualNode) :
  isIllicit illicitAddresses d = true ->
  nodeFill coerce illicitAddresses d = flagged_fill
  /\ nodeStroke coerce illicitAddresses d = flagged_stroke.
Proof.
  intros H. unfold nodeFill, nodeStroke. rewrite H. auto.
Qed.

(** The two scaling branches of the [r] callback clamp: whenever the result
    is a number it lies between the branch's bounds. *)
Lemma scaled_radius_clamped (coerce : jsval -> jsnum) (lo hi : Q) (v : jsval) :
  (lo <= hi)%Q ->
  match scaled_radius coerce lo hi v with
  | Num q => (lo <= q <= hi)%Q
  | NaN => True
  end.
Proof.
  intros Hlh. unfold scaled_radius, math_max, math_min, num_add, num_div.
  destruct (to_number coerce (or_else v (JNum 0))) as [|q]; simpl; [exact I|].
  split; [apply qmax_bounds | apply qmax_qmin_upper; exact Hlh].
Qed.

(** For every node the builder produces, the kind tests of the renderer
    fail and the radius is the constant 8. *)
Lemma built_node_radius (random : nat -> Q) (coerce : jsval -> jsnum)
  (container : bool) (graphData : jsval) (g : Graph) (d : VisualNode) :
  initializeGraph random container graphData = Built g ->
  In d (nodes g) ->
  is_kind "address" d = false /\ is_kind "transaction" d = false
  /\ nodeRadius coerce d = JNum 8.
Proof.
  intros Hb Hin.
  destruct (built_node_fixed _ _ _ _ _ Hb Hin) as [Ht Hs].
  unfold nodeRadius, is_kind, node_get. simpl. rewrite Ht, Hs. simpl. auto.
Qed.

(** C4 on the code. Input: one node
    [{id:"A", type:"address", balance:5000000000}], no flags, no overlay.
    The balance reaches the built node, the kind does not: the node is
    drawn with radius 8 and the default colour, where the address branch
    of the renderer would give radius 11 and the green of a funded
    address. *)
Theorem address_node_drawn_as_generic :
  let raw := JObj [("id", JStr "A"); ("type", JStr "address");
                   ("balance", JNum 5000000000)] in
  exists d,
    initializeGraph zero_random true (payload [raw] [])
    = Built {| nodes := [d]; edges := [] |}
    /\ node_get "balance" d = JNum 5000000000
    /\ node_get "type" d = JStr "circle"
    /\ nodeRadius no_coercion d = JNum 8
    /\ nodeFill no_coercion [] d = hex "#6366f1"
    /\ nodeStroke no_coercion [] d = hex "#111827"
    /\ exists q, scaled_radius no_coercion 6 15 (node_get "balance" d) = Num q
                 /\ (q == 11)%Q.
Proof.
  eexists. split; [reflexivity|].
  repeat (split; [reflexivity|]).
  eexists. split; [reflexivity|]. reflexivity.
Qed.

End RenderFacts.

(** ** The community overlay *)

Module OverlayFacts.

(** *** The ordinal scale *)

Lemma same_value_zero_refl (v : jsval) :
  is_primitive_value v = true -> same_value_zero v v = true.
Proof.
  destruct v as [ | | b | [|q] | s | | xs | fs]; simpl;
    try reflexivity; try discriminate; intros _.
  - apply Bool.eqb_reflx.
  - apply Qeq_bool_refl.
  - apply String.eqb_refl.
Qed.

Lemma same_reference_refl (r : reference) : same_reference r r = true.
Proof.
  destruct r; simpl; [apply String.eqb_refl | apply Nat.eqb_refl].
Qed.

Lemma same_key_refl : forall key : scale_key, same_key key key = true.
Proof.
  intros key. unfold same_key.
  destruct (is_primitive_value (key_value key)) eqn:H; simpl.
  - apply same_value_zero_refl; exact H.
  - apply same_reference_refl.
Qed.

Lemma colorScale_rank (range : list string) (domain : list scale_key)
  (key : scale_key) :
  colorScale range domain key = (pick range (rank key domain), register domain key).
Proof.
  unfold colorScale, register, rank, colorScale.
  destruct (index_of key domain); reflexivity.
Qed.

Lemma index_of_app (key : scale_key) (domain more : list scale_key) (i : nat) :
  index_of key domain = Some i -> index_of key (domain ++ more) = Some i.
Proof.
  revert i. induction domain as [|k rest IH]; intros i; simpl; [discriminate|].
  destruct (same_key k key); [auto|].
  destruct (index_of key rest) as [j|]; [|discriminate].
  intros H. rewrite (IH j eq_refl). exact H.
Qed.

Lemma index_of_fresh (key : scale_key) (domain : list scale_key) :
  index_of key domain = None ->
  index_of key (domain ++ [key]) = Some (List.length domain).
Proof.
  induction domain as [|k rest IH]; simpl.
  - intros _. rewrite same_key_refl. reflexivity.
  - destruct (same_key k key); [discriminate|].
    destruct (index_of key rest); [discriminate|].
    intros _. rewrite (IH eq_refl). reflexivity.
Qed.

Lemma register_self (domain : list scale_key) (key : scale_key) :
  index_of key (register domain key) = Some (rank key domain).
Proof.
  unfold register, rank, colorScale.
  destruct (index_of key domain) as [i|] eqn:H; simpl.
  - exact H.
  - apply index_of_fresh; exact H.
Qed.

Lemma register_stable (domain : list scale_key) (key other : scale_key)
  (i : nat) :
  index_of key domain = Some i -> index_of key (register domain other) = Some i.
Proof.
  intros H. unfold register, colorScale.
  destruct (index_of other domain); simpl; [exact H|].
  apply index_of_app; exact H.
Qed.

(** *** The overlay as a function of partition and node sequence *)

Section Colouring.

Variable inherited : realm.
Variable range : list string.
Variable partition : jsval.

Local Abbreviation communityId := (communityId inherited partition).
Local Abbreviation encounter_order := (encounter_order inherited partition).
Local Abbreviation first_met_colours :=
  (first_met_colours inherited range partition).

Lemma encounter_order_stable (ds : list VisualNode) :
  forall (domain : list scale_key) (key : scale_key) (i : nat),
    index_of key domain = Some i ->
    index_of key (encounter_order ds domain) = Some i.
Proof.
  induction ds as [|d rest IH]; intros domain key i H; simpl; [exact H|].
  apply IH.
  destruct (in_partition (communityId d)); [|exact H].
  apply register_stable; exact H.
Qed.

Lemma rank_of_index (key : scale_key) (domain : list scale_key) (i : nat) :
  index_of key domain = Some i -> rank key domain = i.
Proof. unfold rank. intros ->. reflexivity. Qed.

(** The fill pass: each circle is filled with the colour at the rank its
    community id has in the final domain. *)
Lemma fill_pass_spec (cs : list Circle) :
  forall domain : list scale_key,
    let final := encounter_order (map datum cs) domain in
    attr_pass (communityFill inherited range partition) set_fill cs domain
    = (map (fun c => set_fill c (attr_fill (first_met_colours final c))) cs,
       final).
Proof.
  induction cs as [|c rest IH]; intros domain; simpl; [reflexivity|].
  unfold communityFill at 1. cbv zeta.
  unfold first_met_colours at 1.
  destruct (in_partition (communityId (datum c))) eqn:Hdef.
  - rewrite colorScale_rank. rewrite IH. simpl.
    rewrite (rank_of_index _ _ _
               (encounter_order_stable _ _ _ _ (register_self domain _))).
    reflexivity.
  - rewrite IH. simpl. reflexivity.
Qed.

(** Every community id of the presented nodes is in the final domain. *)
Lemma encounter_order_complete (ds : list VisualNode) :
  forall (domain : list scale_key) (d : VisualNode),
    In d ds -> in_partition (communityId d) = true ->
    exists i, index_of (communityId d) (encounter_order ds domain) = Some i.
Proof.
  induction ds as [|d0 rest IH]; intros domain d Hin Hdef; [contradiction|].
  simpl. destruct Hin as [->|Hin].
  - rewrite Hdef. eexists.
    apply encounter_order_stable. apply register_self.
  - apply IH; assumption.
Qed.

(** The stroke pass over a domain that already holds every id: the domain
    is left as it is. *)
Lemma stroke_pass_spec (cs : list Circle) (domain : list scale_key) :
  (forall c, In c cs ->
             in_partition (communityId (datum c)) = true ->
             exists i, index_of (communityId (datum c)) domain = Some i) ->
  attr_pass (communityStroke inherited range partition) set_stroke cs domain
  = (map (fun c => set_stroke c (attr_stroke (first_met_colours domain c))) cs,
     domain).
Proof.
  induction cs as [|c rest IH]; intros Hall; simpl; [reflexivity|].
  unfold communityStroke at 1. cbv zeta.
  unfold first_met_colours at 1.
  destruct (in_partition (communityId (datum c))) eqn:Hdef; simpl.
  - destruct (Hall c (or_introl eq_refl) Hdef) as [i Hi].
    unfold colorScale, rank. rewrite Hi.
    rewrite IH by (intros; apply Hall; [right|]; assumption). reflexivity.
  - rewrite IH by (intros; apply Hall; [right|]; assumption). reflexivity.
Qed.

End Colouring.

Lemma first_met_colours_datum (inherited : realm) (range : list string)
  (partition : jsval) (domain : list scale_key) (c : Circle) :
  datum (first_met_colours inherited range partition domain c) = datum c
  /\ attr_r (first_met_colours inherited range partition domain c) = attr_r c.
Proof.
  unfold first_met_colours.
  destruct (in_partition (communityId inherited partition (datum c)));
    simpl; auto.
Qed.

(** The passes of the source compute the first-met colouring: a circle
    whose node is in the partition takes the palette entry at the rank at
    which its community id is first met walking the circles in document
    order. *)
Lemma applyCommunityColors_spec (coerce : jsval -> jsnum) (inherited : realm)
  (data : jsval) (cs : list Circle) :
  applyCommunityColors coerce inherited data cs
  = map (first_met_colours inherited (palette coerce data)
           (get "partition" data)
           (encounter_order inherited (get "partition" data)
                            (map datum cs) [])) cs.
Proof.
  unfold applyCommunityColors.
  set (range := palette coerce data). set (partition := get "partition" data).
  rewrite fill_pass_spec. cbv zeta.
  set (final := encounter_order inherited partition (map datum cs) []).
  rewrite stroke_pass_spec.
  - rewrite !map_map. apply map_ext. intros c.
    unfold first_met_colours, set_stroke, set_fill, set_stroke_width. simpl.
    destruct (in_partition (communityId inherited partition (datum c)));
      reflexivity.
  - intros c Hin Hdef. apply in_map_iff in Hin.
    destruct Hin as (c0 & <- & Hin0). simpl in *.
    apply (encounter_order_complete inherited partition (map datum cs) []
             (datum c0)).
    + apply in_map. exact Hin0.
    + exact Hdef.
Qed.




(** *** Idempotence and order (C7) *)


(** What a node inherits counts as its community: with the nodes
    [constructor] and B and the partition {B:0}, [partition['constructor']]
    is the function every object inherits, it takes the first palette
    colour, and B takes the second. *)
Example inherited_property_is_a_community :
  let data := JObj [("partition", JObj [("B", JNum 0)]);
                    ("num_communities", JNum 1)] in
  let c := fst (build_node zero_random (obj_id "constructor") 0) in
  let b := fst (build_node zero_random (obj_id "B") 0) in
  map (fun c => (node_id (datum c), attr_fill c))
      (applyCommunityColors no_coercion plain_objects data
         (draw_circles no_coercion [] (mkGraph [c; b] [])))
  = [("constructor", hex "#1f77b4"); ("B", hex "#ff7f0e")].
Proof. reflexivity. Qed.

(** Two arrays that look alike are two communities: they are keys by
    reference. *)
Example look_alike_arrays_are_two_communities :
  let data := JObj [("partition", JObj [("A", JArr [JNum 1]);
                                        ("B", JArr [JNum 1])]);
                    ("num_communities", JNum 1)] in
  map attr_fill
      (applyCommunityColors no_coercion plain_objects data
         (draw_circles no_coercion [] sample_graph))
  = [hex "#1f77b4"; hex "#ff7f0e"].
Proof. reflexivity. Qed.



(** *** Flagged nodes under the overlay (C3) *)

(** C3 on the code. Input: nodes A and B joined by an edge, A flagged by
    {address: 'A', risk_level: 'high', confidence: 1, sources:
    ['chainabuse']}, mounted in a container of 800 by 600. The renderer
    initializes and draws A in the flagged colours. After the layout run
    of the mount, Run Louvain is pressed in the toolbar and the answer
    {partition: {A:0, B:1}, num_communities: 2, modularity: 0.42} gives A
    the first palette colour like any other node of community 0; an answer
    whose partition does not mention A, {partition: {B:0}, ...}, resets A
    to its data colour, not to the colour it was drawn with. (A flag
    without [sources] does not get that far: its tooltip throws, the
    renderer ends in its error, and with the error panel in place of the
    toolbar no request is sent.) *)
Theorem overlay_recolours_flagged_node :
  let flag srcs := mkFlag (JStr "A") (JStr "high") (JNum 1) srcs JUndefined in
  let graphData := payload [obj_id "A"; obj_id "B"] [raw_edge "A" "B"] in
  let mounted flags :=
    Renderer.mount zero_random no_coercion flags graphData
                   (Lifecycle.fresh 800 600) in
  let play flags o :=
    Toolbar.state
      (Toolbar.ui_run no_coercion plain_objects graphData
         (Toolbar.mkDesk (Renderer.session (mounted flags)) false)
         [Toolbar.Timer; Toolbar.Timeout; Toolbar.Press Toolbar.RunLouvain;
          Toolbar.Settles 1 o]) in
  let both := answer [("partition", partition_AB 0 1);
                      ("num_communities", JNum 2);
                      ("modularity", JNum (42 # 100))] in
  let only_B := answer [("partition", JObj [("B", JNum 0)]);
                        ("num_communities", JNum 1);
                        ("modularity", JNum 0)] in
  let flagged := [flag (JArr [JStr "chainabuse"])] in
  (Lifecycle.error (mounted flagged) = None
   /\ Lifecycle.containerReady (mounted flagged) = true)
  /\ state_colours (Renderer.session (mounted flagged))
     = Some [(flagged_fill, flagged_stroke); (hex "#6366f1", hex "#111827")]
  /\ fetches (play flagged both) = 1%nat
  /\ state_colours (play flagged both)
     = Some [(hex "#1f77b4", Darker "#1f77b4");
             (hex "#ff7f0e", Darker "#ff7f0e")]
  /\ error (play flagged both) = None
  /\ state_colours (play flagged only_B)
     = Some [(hex "#6366f1", hex "#111827");
             (hex "#1f77b4", Darker "#1f77b4")]
  /\ (Lifecycle.error (mounted [flag JUndefined])
      = Some "Renderer initialization failed"
      /\ fetches (play [flag JUndefined] both) = 0%nat).
Proof. repeat split; reflexivity. Qed.

(** *** Failed detections (C8) *)

(** C8, as worded, fails: an answer that reports success but carries no
    partition is malformed, yet no error is surfaced; the run ends with the
    success notice. *)
Lemma malformed_answer_without_error :
  let o := answer [("num_communities", JNum 0); ("modularity", JNum 0)] in
  let s' := runLouvainAlgorithm_resume no_coercion plain_objects o
              (sample_state []) in
  detection_failed o = true
  /\ error s' = None
  /\ toasts s' = [ToastSuccess].
Proof. repeat split; reflexivity. Qed.

(** The unguarded read of [data.modularity] comes after the overlay: an
    answer with a partition and no modularity recolours the nodes and is
    then reported as a failure. *)
Example overlay_applied_then_reported_failed :
  let o := answer [("partition", partition_AB 0 1);
                   ("num_communities", JNum 2)] in
  let s := sample_state [] in
  let s' := runLouvainAlgorithm_resume no_coercion plain_objects o s in
  error s' = Some "Community detection failed"
  /\ state_colours s' <> state_colours s.
Proof. split; [reflexivity | discriminate]. Qed.

Lemma catch_keeps_svg (s : State) :
  svg (runLouvainAlgorithm_catch s) = svg s
  /\ error (runLouvainAlgorithm_catch s) = Some "Community detection failed"
  /\ isLoading (runLouvainAlgorithm_catch s) = false.
Proof. repeat split; reflexivity. Qed.

(** C8 (amended): when the fetch rejects, the response is not ok or has no
    JSON body, [success] is falsy or [data] is missing, the error is
    surfaced and the svg, hence every fill and stroke, is as before; and
    whatever the answer, the circles change only if it reports success and
    carries a truthy partition. *)
Theorem failed_detection_keeps_colours (coerce : jsval -> jsnum)
  (inherited : realm) (o : fetch_outcome) (s : State) :
  (rejected_before_overlay o = true ->
   error (runLouvainAlgorithm_resume coerce inherited o s)
   = Some "Community detection failed"
   /\ svg (runLouvainAlgorithm_resume coerce inherited o s) = svg s
   /\ state_colours (runLouvainAlgorithm_resume coerce inherited o s)
      = state_colours s)
  /\ (svg (runLouvainAlgorithm_resume coerce inherited o s) <> svg s ->
      exists result, o = Answered true (Some result)
                     /\ carries_partition result = true).
Proof.
  unfold state_colours, carries_partition.
  destruct o as [|[|] [result|]]; simpl;
    try (split; [intros _; repeat split; reflexivity
                | intros H; exfalso; apply H; reflexivity]).
  destruct (truthy (get "success" result)) eqn:Hsucc; simpl;
    [|split; [intros _; repeat split; reflexivity
             | intros H; exfalso; apply H; reflexivity]].
  destruct (is_nullish (get "data" result)) eqn:Hnull; simpl;
    [split; [intros _; repeat split; reflexivity
            | intros H; exfalso; apply H; reflexivity]|].
  split; [discriminate|].
  intros Hsvg. exists result. split; [reflexivity|].
  rewrite Hsucc, Hnull. simpl.
  destruct (truthy (get "partition" (get "data" result))); [reflexivity|].
  exfalso. apply Hsvg.
  destruct (svg s) eqn:Esvg;
    destruct (get "modularity" (get "data" result)); simpl; exact Esvg.
Qed.

Lemma failed_detection_keeps_colours_witness :
  let s := sample_state [] in
  let o := Answered true (Some (JObj [("success", JBool false);
                                      ("error", JStr "boom")])) in
  error (runLouvainAlgorithm_resume no_coercion plain_objects o s)
  = Some "Community detection failed"
  /\ svg (runLouvainAlgorithm_resume no_coercion plain_objects o s) = svg s
  /\ state_colours (runLouvainAlgorithm_resume no_coercion plain_objects o s)
     = state_colours s.
Proof.
  intros s o.
  apply (proj1 (failed_detection_keeps_colours no_coercion plain_objects o s)).
  reflexivity.
Defined.

(** *** Overlapping requests (C2) *)

Section Arrival.

Variable coerce : jsval -> jsnum.
Variable inherited : realm.




End Arrival.




End OverlayFacts.

(** ** Zoom *)

Module ZoomFacts.

Import Zoom NumFacts.

Open Scope Q_scope.

(** The behaviour the svg is called with clamps: after a gesture it
    reports, the scale is within the extent, whatever the factor and
    whatever the scale was. *)
Lemma gesture_within_extent (width height : Q) (v : View) (factor px py : Q) :
  within_extent
    (k (zoom_prop (handle width height v (Gesture factor px py)))).
Proof.
  unfold within_extent. simpl. split.
  - apply (qmax_bounds (1 # 10)).
  - apply (qmax_qmin_upper (1 # 10) 10). discriminate.
Qed.

(** Without the buttons the bound of the data model holds throughout. *)
Lemma gestures_stay_within_extent (width height : Q) (inputs : list input) :
  forall v : View,
    within_extent (k (zoom_prop v)) ->
    forallb by_gesture inputs = true ->
    within_extent (k (zoom_prop (handle_all width height v inputs))).
Proof.
  unfold handle_all.
  induction inputs as [|i rest IH]; intros v Hv Hall; simpl; [exact Hv|].
  simpl in Hall. apply andb_prop in Hall. destruct Hall as [Hi Hrest].
  apply IH; [|exact Hrest].
  destruct i as [factor px py|factor px py|dx dy| | |]; try discriminate.
  - apply gesture_within_extent.
  - cbn [handle].
    destruct (Qeq_bool (k (zoom_prop v))
                       (clamp zoom (k (zoom_prop v) * factor)));
      [exact Hv | exact (gesture_within_extent width height v factor px py)].
  - simpl. exact Hv.
Qed.

(** C5 on the code. Input: the zoom-in button pressed 13 times on a fresh
    800 by 600 view. Each press multiplies the stored scale by 1.2 through
    a new [d3.zoom()], whose extent is unbounded and which has no
    listener: the scale ends above 10 while the displayed level still
    reads 1, and the next pan displays the out-of-range scale. Thirteen
    presses of the zoom-out button end below 0.1 in the same way. *)
Theorem zoom_buttons_leave_extent :
  let v := handle_all 800 600 initial_view (repeat ClickZoomIn 13) in
  let w := handle_all 800 600 initial_view (repeat ClickZoomOut 13) in
  10 < k (zoom_prop v)
  /\ zoomLevel v == 1
  /\ 10 < zoomLevel (handle 800 600 v (Pan 1 0))
  /\ k (zoom_prop w) < 1 # 10.
Proof. vm_compute. repeat split. Qed.

End ZoomFacts.

(** ** Drag pinning *)

Module SimulationFacts.

Import Simulation.

Open Scope Q_scope.

Lemma nth_error_update (i : nat) (f : Body -> Body) (bs : list Body) :
  nth_error (update i f bs) i = option_map f (nth_error bs i).
Proof.
  unfold update. destruct (nth_error bs i) as [b|] eqn:Hb; simpl; [|exact Hb].
  assert (Hlen : (i < List.length bs)%nat)
    by (apply nth_error_Some; congruence).
  rewrite nth_error_app2; rewrite length_firstn, Nat.min_l by lia; [|lia].
  rewrite Nat.sub_diag. reflexivity.
Qed.

Section WithForces.

Variable forces : Q -> list Body -> nat -> Q * Q * Q * Q.
Variables velocityDecay alphaDecay : Q.

Local Abbreviation tick := (tick forces velocityDecay alphaDecay).
Local Abbreviation drag_run := (drag_run forces velocityDecay alphaDecay).
Local Abbreviation integrate := (integrate velocityDecay).

Lemma nth_error_push_from (a : Q) (bs rest : list Body) :
  forall j i : nat,
    nth_error (push_from forces a bs j rest) i
    = option_map (pushed forces a bs (j + i)) (nth_error rest i).
Proof.
  induction rest as [|b rest' IH]; intros j [|i]; simpl; try reflexivity.
  - rewrite Nat.add_0_r. reflexivity.
  - rewrite IH. rewrite Nat.add_succ_r. reflexivity.
Qed.

(** The body a tick leaves at index [i]. *)
Lemma nth_error_tick (s : Sim) (i : nat) :
  nth_error (bodies (tick s)) i
  = option_map
      (fun b => integrate
                  (pushed forces
                     (alpha s + (alphaTarget s - alpha s) * alphaDecay)
                     (bodies s) i b))
      (nth_error (bodies s) i).
Proof.
  simpl. rewrite nth_error_map. unfold apply_forces.
  rewrite nth_error_push_from. simpl.
  destruct (nth_error (bodies s) i); reflexivity.
Qed.

Lemma pushed_pins (a : Q) (bs : list Body) (j : nat) (b : Body) :
  pins (pushed forces a bs j b) = pins b.
Proof.
  unfold pushed. destruct (forces a bs j) as [[[x' y'] vx'] vy']. reflexivity.
Qed.

(** A tick puts a pinned node on its pin and leaves the pin in place. *)
Lemma tick_pinned (s : Sim) (i : nat) (a b : Q) :
  pinned i s = Some (Some a, Some b) ->
  pinned i (tick s) = Some (Some a, Some b)
  /\ position i (tick s) = Some (a, b).
Proof.
  unfold pinned, position. rewrite nth_error_tick.
  destruct (nth_error (bodies s) i) as [d|]; simpl; [|discriminate].
  intros H.
  assert (Hd : fx d = Some a /\ fy d = Some b)
    by (unfold pins in H; injection H; auto).
  destruct Hd as [Hda Hdb].
  pose proof (pushed_pins (alpha s + (alphaTarget s - alpha s) * alphaDecay)
                (bodies s) i d) as Hp.
  unfold pins in Hp. injection Hp as Hfx Hfy.
  rewrite Hda in Hfx. rewrite Hdb in Hfy.
  unfold Simulation.integrate, pins. rewrite Hfx, Hfy. simpl. auto.
Qed.

Lemma drag_move_pinned (s : Sim) (i : nat) (ex ey : Q) (p : option Q * option Q) :
  pinned i s = Some p ->
  pinned i (drag_move i ex ey s) = Some (Some ex, Some ey).
Proof.
  unfold pinned. simpl. rewrite nth_error_update.
  destruct (nth_error (bodies s) i); simpl; [reflexivity | discriminate].
Qed.

(** Throughout a drag the pin is where the pointer last put it. *)
Lemma drag_run_pinned (i : nat) (es : list during_drag) :
  forall (s : Sim) (a b : Q),
    pinned i s = Some (Some a, Some b) ->
    pinned i (drag_run i s es)
    = Some (Some (fst (last_pointer (a, b) es)),
            Some (snd (last_pointer (a, b) es))).
Proof.
  unfold Simulation.drag_run, last_pointer.
  induction es as [|e rest IH]; intros s a b Hp; simpl; [exact Hp|].
  destruct e as [|ex ey]; simpl.
  - apply IH. apply tick_pinned. exact Hp.
  - apply IH. apply (drag_move_pinned s i ex ey _ Hp).
Qed.

Lemma drag_start_pinned (s : Sim) (i : nat) (x0 y0 : Q) :
  position i s = Some (x0, y0) ->
  pinned i (drag_start i s) = Some (Some x0, Some y0).
Proof.
  unfold position, pinned. simpl. rewrite nth_error_update.
  destruct (nth_error (bodies s) i) as [d|]; simpl; [|discriminate].
  intros H. injection H as <- <-. reflexivity.
Qed.

(** C6: from drag start to drag end, after any run of ticks and pointer
    moves, the next tick leaves the dragged node exactly where the drag
    handlers last pinned it (the drag-start position until the pointer
    first moves) and leaves the pin in place; once drag end has cleared the
    pin, the next tick moves the node from where the forces left it by its
    decayed velocity, as it does for any free node. *)
Theorem pinned_node_follows_pointer (s : Sim) (i : nat) (x0 y0 : Q)
  (es : list during_drag) :
  position i s = Some (x0, y0) ->
  let dragging := drag_run i (drag_start i s) es in
  let pin := last_pointer (x0, y0) es in
  position i (tick dragging) = Some pin
  /\ pinned i (tick dragging) = Some (Some (fst pin), Some (snd pin))
  /\ let released := drag_end i dragging in
     pinned i released = Some (None, None)
     /\ exists d,
          nth_error (bodies released) i = Some d
          /\ let '(x', y', vx', vy') :=
               forces (alpha released
                       + (alphaTarget released - alpha released) * alphaDecay)
                      (bodies released) i in
             position i (tick released)
             = Some (x' + vx' * velocityDecay, y' + vy' * velocityDecay).
Proof.
  intros Hpos dragging pin.
  pose proof (drag_run_pinned i es _ _ _ (drag_start_pinned s i x0 y0 Hpos))
    as Hpin.
  fold dragging pin in Hpin.
  destruct (tick_pinned dragging i _ _ Hpin) as [Hp' Hpos'].
  split; [|split; [exact Hp'|]].
  - rewrite Hpos'. destruct pin; reflexivity.
  - intros released.
    assert (Hd : exists d0, nth_error (bodies dragging) i = Some d0).
    { unfold pinned in Hpin.
      destruct (nth_error (bodies dragging) i) as [d0|]; [|discriminate].
      exists d0; reflexivity. }
    destruct Hd as [d0 Hd0].
    assert (Hrel : nth_error (bodies released) i
                   = Some (mkBody (x d0) (y d0) (vx d0) (vy d0) None None)).
    { unfold released. simpl. rewrite nth_error_update, Hd0. reflexivity. }
    split.
    + unfold pinned. rewrite Hrel. reflexivity.
    + eexists. split; [exact Hrel|].
      unfold position. rewrite nth_error_tick, Hrel. simpl.
      unfold pushed.
      match goal with
      | |- context [forces ?a ?bs ?j] =>
          destruct (forces a bs j) as [[[x' y'] vx'] vy']
      end.
      reflexivity.
Qed.

End WithForces.

Lemma pinned_node_follows_pointer_witness :
  let dragging :=
    drag_run sample_forces (6 # 10) (2 # 100) 1
             (drag_start 1 sample_sim) [Tick; Move 30 40; Tick] in
  position 1 (tick sample_forces (6 # 10) (2 # 100) dragging) = Some (30, 40).
Proof.
  intros dragging.
  apply (pinned_node_follows_pointer sample_forces (6 # 10) (2 # 100)
           sample_sim 1 10 20 [Tick; Move 30 40; Tick]).
  reflexivity.
Defined.

End SimulationFacts.

(** ** Initialization and resize *)

Module LifecycleFacts.

Import Lifecycle.

Section WithEnvironment.

Variable random : nat -> Q.
Variable coerce : jsval -> jsnum.
Variable illicitAddresses : list IllicitFlag.

Local Abbreviation resize := (resize coerce illicitAddresses).


(** Where none is watching, a resize initializes nothing. *)
Lemma unobserved_resize_is_ignored (p : Page) (w h : Z) :
  resizeObserverRef p = false ->
  resize w h p = resize_container w h p.
Proof.
  intros Hobs. unfold Lifecycle.resize. simpl. rewrite Hobs. reflexivity.
Qed.

End WithEnvironment.

(** C9 on the code. Input: the component mounts with a two-node graph
    while its container measures 0 by 0, then the container is resized to
    800 by 600. The mount logs that initialization is postponed and, having
    no svg, installs no resize observer; the resize therefore initializes
    nothing and [containerReady] stays false. *)
Theorem zero_size_mount_is_not_retried :
  let graphData := payload [obj_id "A"; obj_id "B"] [raw_edge "A" "B"] in
  let mounted := step zero_random no_coercion [] (fresh 0 0) (Mount graphData) in
  let resized := step zero_random no_coercion [] mounted (Resize 800 600) in
  log mounted = ["Graph initialized successfully"; msg_postponed]
  /\ resizeObserverRef mounted = false
  /\ containerReady resized = false
  /\ initializations resized = 0%nat
  /\ svgRef resized = None
  /\ error resized = None.
Proof. repeat split; reflexivity. Qed.

(** With the observer in place (the container had a size at mount) the
    same resize from 0 by 0 does initialize once more. *)
Example observed_zero_size_recovers :
  let graphData := payload [obj_id "A"; obj_id "B"] [raw_edge "A" "B"] in
  let shrunk := run zero_random no_coercion [] (fresh 800 600)
                    [Mount graphData; Resize 0 0] in
  let resized := step zero_random no_coercion [] shrunk (Resize 800 600) in
  initializations shrunk = 1%nat
  /\ initializations resized = 2%nat
  /\ containerReady resized = true.
Proof. repeat split; reflexivity. Qed.

(** A dangling edge passes the builder and then stops the renderer: d3's
    link force does not find the node. *)
Example dangling_edge_fails_renderer :
  let graphData := payload [obj_id "A"] [raw_edge "A" "B"] in
  let mounted := step zero_random no_coercion [] (fresh 800 600) (Mount graphData) in
  error mounted = Some "Renderer initialization failed"
  /\ containerReady mounted = false.
Proof. split; reflexivity. Qed.

End LifecycleFacts.

(** ** Further properties of the builder *)

Module PayloadFacts.

Import BuilderFacts.

Lemma build_node_id (random : nat -> Q) (n : jsval) (k : nat) :
  node_id (fst (build_node random n k)) = id_string (get "id" n)
  /\ node_attrs (fst (build_node random n k))
     = passthrough node_exclude (entries n).
Proof.
  unfold build_node.
  destruct (coord random (get "x" n) k) as [x k1].
  destruct (coord random (get "y" n) k1) as [y k2].
  split; reflexivity.
Qed.

Lemma build_nodes_ids (random : nat -> Q) (ns : list jsval) :
  forall k : nat,
    map node_id (build_nodes random ns k)
    = map (fun n => id_string (get "id" n)) ns.
Proof.
  induction ns as [|n rest IH]; intros k; simpl; [reflexivity|].
  destruct (build_node random n k) as [v k'] eqn:Hb. simpl.
  rewrite IH. f_equal.
  pose proof (proj1 (build_node_id random n k)) as H.
  rewrite Hb in H. exact H.
Qed.

Lemma kept_ids (ns : list jsval) :
  map (fun n => id_string (get "id" n)) (filter keep_node ns)
  = flat_map (fun n => match get "id" n with
                       | JStr s => [s]
                       | _ => []
                       end) ns.
Proof.
  induction ns as [|n rest IH]; simpl; [reflexivity|].
  unfold keep_node at 1.
  destruct n as [ | | b | num | s | | items | fs]; simpl; try exact IH.
  - destruct b; simpl; exact IH.
  - destruct num as [|q]; simpl; [exact IH|].
    destruct (negb (Qeq_bool q 0)); exact IH.
  - destruct (negb (s =? "")); exact IH.
  - destruct (lookup "id" fs) eqn:Hid; simpl; rewrite ?Hid; simpl;
      try exact IH.
    rewrite IH. reflexivity.
Qed.

(** The node ids of a built graph are the string ids of the payload's node
    entries, in payload order: an entry with a string id is never dropped,
    not even when the id is empty or repeats an earlier one, and an entry
    without one never appears. *)
Theorem built_node_ids_follow_payload (random : nat -> Q) (container : bool)
  (graphData : jsval) (g : Graph) :
  initializeGraph random container graphData = Built g ->
  exists rawNodes,
    as_list (get "nodes" graphData) = Some rawNodes
    /\ node_ids g
       = flat_map (fun n => match get "id" n with
                            | JStr s => [s]
                            | _ => []
                            end) rawNodes.
Proof.
  intros Hb.
  destruct (initializeGraph_built _ _ _ _ Hb) as (ns & es & Hns & _ & Hn & _).
  exists ns. split; [exact Hns|].
  unfold node_ids. rewrite Hn, build_nodes_ids. apply kept_ids.
Qed.

Lemma built_node_ids_follow_payload_witness :
  node_ids {| nodes := build_nodes zero_random [obj_id "A"; obj_id "A"] 0;
              edges := [] |}
  = ["A"; "A"].
Proof.
  destruct (built_node_ids_follow_payload zero_random true
              (payload [obj_id "A"; JNull; JObj [("id", JNum 7)]; obj_id "A"] [])
              {| nodes := build_nodes zero_random [obj_id "A"; obj_id "A"] 0;
                 edges := [] |} eq_refl) as (raw & Hraw & Hids).
  injection Hraw as <-. exact Hids.
Defined.

(** A property outside the exclusion list whose value is neither null,
    undefined nor a function survives the spread. *)
Lemma passthrough_keeps (exclude : list string) (key : string)
  (fs : list (string * jsval)) :
  includes exclude key = false ->
  is_nullish (lookup key fs) = false ->
  is_function (lookup key fs) = false ->
  lookup key (passthrough exclude fs) = lookup key fs.
Proof.
  intros Hex. induction fs as [|[k' v] rest IH]; simpl; [reflexivity|].
  destruct (k' =? key) eqn:Hk.
  - apply String.eqb_eq in Hk. subst k'. intros Hn Hf.
    rewrite Hex. simpl.
    assert (Hu : strict_eq v JUndefined = false) by (destruct v as [ | | | [|] | | | | ]; simpl in *; congruence).
    assert (Hl : strict_eq v JNull = false) by (destruct v as [ | | | [|] | | | | ]; simpl in *; congruence).
    rewrite Hu, Hl, Hf. simpl. rewrite String.eqb_refl. reflexivity.
  - intros Hn Hf.
    destruct (negb (includes exclude k') && negb (strict_eq v JUndefined)
              && negb (strict_eq v JNull) && negb (is_function v)); simpl.
    + rewrite Hk. apply IH; assumption.
    + apply IH; assumption.
Qed.

Lemma node_get_attr (key : string) (d : VisualNode) :
  includes node_exclude key = false ->
  node_get key d = lookup key (node_attrs d).
Proof.
  unfold includes, node_exclude, node_get. simpl. intros H.
  repeat (apply orb_false_elim in H; destruct H as [?H H]).
  repeat match goal with
         | Hk : (key =? _) = false |- _ => rewrite Hk; clear Hk
         end.
  reflexivity.
Qed.

Lemma built_node_origin (random : nat -> Q) (container : bool)
  (graphData : jsval) (g : Graph) (d : VisualNode) :
  initializeGraph random container graphData = Built g ->
  In d (nodes g) ->
  exists rawNodes n k,
    as_list (get "nodes" graphData) = Some rawNodes
    /\ In n rawNodes /\ keep_node n = true
    /\ d = fst (build_node random n k).
Proof.
  intros Hb Hin.
  destruct (initializeGraph_built _ _ _ _ Hb) as (ns & es & Hns & _ & Hn & _).
  rewrite Hn in Hin.
  destruct (build_nodes_origin _ _ _ _ Hin) as (n & k & Hin' & ->).
  apply filter_In in Hin'. destruct Hin' as [Hraw Hkeep].
  exists ns, n, k. auto.
Qed.

(** Extra properties of a payload node reach the built node unchanged:
    whatever is not on the exclusion list and is neither null, undefined
    nor a function reads on the built node as it reads on the payload
    entry; and nothing on the exclusion list is among the passed-through
    attributes. *)
Theorem node_attributes_pass_through (random : nat -> Q) (container : bool)
  (graphData : jsval) (g : Graph) (d : VisualNode) :
  initializeGraph random container graphData = Built g ->
  In d (nodes g) ->
  exists rawNodes n,
    as_list (get "nodes" graphData) = Some rawNodes /\ In n rawNodes
    /\ get "id" n = JStr (node_id d)
    /\ (forall key,
          includes node_exclude key = false ->
          is_nullish (get key n) = false ->
          is_function (get key n) = false ->
          node_get key d = get key n)
    /\ (forall key,
          includes node_exclude key = true ->
          lookup key (node_attrs d) = JUndefined).
Proof.
  intros Hb Hin.
  destruct (built_node_origin _ _ _ _ _ Hb Hin)
    as (ns & n & k & Hns & Hraw & Hkeep & ->).
  destruct (build_node_id random n k) as [Hid Hattrs].
  exists ns, n. repeat split; auto.
  - unfold keep_node in Hkeep. apply andb_prop in Hkeep.
    destruct Hkeep as [_ Hs]. rewrite Hid.
    destruct (get "id" n); try discriminate. reflexivity.
  - intros key Hex Hn Hf. rewrite (node_get_attr _ _ Hex), Hattrs.
    destruct n as [ | | | | | | | fs]; simpl in *; try discriminate.
    apply passthrough_keeps; assumption.
  - intros key Hex. rewrite Hattrs. apply passthrough_excluded. exact Hex.
Qed.

Lemma node_attributes_pass_through_witness :
  let raw := JObj [("id", JStr "A"); ("type", JStr "address");
                   ("balance", JNum 5); ("note", JNull)] in
  let d := fst (build_node zero_random raw 0) in
  node_get "balance" d = JNum 5.
Proof.
  intros raw d.
  destruct (node_attributes_pass_through zero_random true (payload [raw] [])
              {| nodes := [d]; edges := [] |} d eq_refl (or_introl eq_refl))
    as (ns & n & Hns & Hin & Hid & Hkeep & _).
  injection Hns as <-. destruct Hin as [<-|[]].
  apply (Hkeep "balance"); reflexivity.
Defined.

Lemma coord_cases (random : nat -> Q) (v : jsval) (k : nat) :
  (is_nullish v = false -> fst (coord random v k) = v)
  /\ (is_nullish v = true -> fst (coord random v k) = JNum (random k * 1000)).
Proof.
  unfold coord. destruct (is_nullish v); split; intros H;
    try discriminate; reflexivity.
Qed.

Lemma build_node_coords (random : nat -> Q) (n : jsval) (k : nat) :
  exists kx ky,
    node_x (fst (build_node random n k)) = fst (coord random (get "x" n) kx)
    /\ node_y (fst (build_node random n k)) = fst (coord random (get "y" n) ky).
Proof.
  unfold build_node.
  destruct (coord random (get "x" n) k) as [x k1] eqn:Hx.
  destruct (coord random (get "y" n) k1) as [y k2] eqn:Hy.
  exists k, k1. simpl. rewrite Hx, Hy. auto.
Qed.

(** A coordinate the payload supplies is kept as it is, zero included
    (the default is applied with [??], not with [||]); a coordinate that is
    missing or null is drawn at random, a thousand times a draw. *)
Theorem supplied_coordinates_are_kept (random : nat -> Q) (container : bool)
  (graphData : jsval) (g : Graph) (d : VisualNode) :
  initializeGraph random container graphData = Built g ->
  In d (nodes g) ->
  exists rawNodes n,
    as_list (get "nodes" graphData) = Some rawNodes /\ In n rawNodes
    /\ get "id" n = JStr (node_id d)
    /\ (is_nullish (get "x" n) = false -> node_x d = get "x" n)
    /\ (is_nullish (get "y" n) = false -> node_y d = get "y" n)
    /\ (is_nullish (get "x" n) = true ->
        exists k, node_x d = JNum (random k * 1000))
    /\ (is_nullish (get "y" n) = true ->
        exists k, node_y d = JNum (random k * 1000)).
Proof.
  intros Hb Hin.
  destruct (built_node_origin _ _ _ _ _ Hb Hin)
    as (ns & n & k & Hns & Hraw & Hkeep & ->).
  destruct (build_node_coords random n k) as (kx & ky & Hx & Hy).
  exists ns, n. split; [exact Hns|]. split; [exact Hraw|]. split.
  { unfold keep_node in Hkeep. apply andb_prop in Hkeep.
    destruct Hkeep as [_ Hs]. rewrite (proj1 (build_node_id random n k)).
    destruct (get "id" n); try discriminate. reflexivity. }
  rewrite Hx, Hy.
  destruct (coord_cases random (get "x" n) kx) as [Hx1 Hx2].
  destruct (coord_cases random (get "y" n) ky) as [Hy1 Hy2].
  repeat split; auto.
  - intros H. exists kx. auto.
  - intros H. exists ky. auto.
Qed.

Lemma supplied_coordinates_are_kept_witness :
  let raw := JObj [("id", JStr "A"); ("x", JNum 0); ("y", JNum 25)] in
  let d := fst (build_node (fun _ => 1 # 2) raw 0) in
  node_x d = JNum 0.
Proof.
  intros raw d.
  destruct (supplied_coordinates_are_kept (fun _ => 1 # 2) true
              (payload [raw] []) {| nodes := [d]; edges := [] |} d
              eq_refl (or_introl eq_refl))
    as (ns & n & Hns & Hin & _ & Hx & _).
  injection Hns as <-. destruct Hin as [<-|[]].
  apply Hx. reflexivity.
Defined.

Lemma as_list_none (v : jsval) :
  as_list v = None <-> not_a_list v = true.
Proof.
  unfold as_list, not_a_list, or_else.
  destruct (truthy v) eqn:Ht; simpl.
  - destruct v; simpl; split; intros H; try reflexivity; discriminate.
  - split; discriminate.
Qed.

(** The builder gives up in exactly two ways. It returns null, silently,
    when there is no data or no container. It fails with an error when
    [nodes] or [edges] is something truthy that is not an array, and only
    then: no entry inside the arrays, however malformed, makes it fail. *)
Theorem builder_fails_only_on_non_lists (random : nat -> Q) (container : bool)
  (graphData : jsval) :
  (initializeGraph random container graphData = NoGraph
   <-> truthy graphData = false \/ container = false)
  /\ (initializeGraph random container graphData = BuildFailed
      <-> truthy graphData = true /\ container = true
          /\ (not_a_list (get "nodes" graphData) = true
              \/ not_a_list (get "edges" graphData) = true)).
Proof.
  unfold initializeGraph.
  rewrite <- !as_list_none.
  destruct (truthy graphData); destruct container; simpl;
    try (split; split;
         [ auto | intros _; reflexivity | discriminate
         | intros (H1 & H2 & _); discriminate ]).
  destruct (as_list (get "nodes" graphData)) as [ns|];
    destruct (as_list (get "edges" graphData)) as [es|];
    (split; split;
     [ discriminate | intros [H|H]; discriminate
     | try discriminate; auto
     | try reflexivity; intros (_ & _ & [H|H]); discriminate ]).
Qed.

End PayloadFacts.

(** ** Links *)

Module LinkFacts.

Import NumFacts BuilderFacts PayloadFacts.

Open Scope Q_scope.

Lemma at_least_one_truthy (q : Q) : 1 <= q -> truthy (JNum q) = true.
Proof.
  intros H. simpl. apply negb_true_iff.
  destruct (Qeq_bool q 0) eqn:E; [|reflexivity].
  apply Qeq_bool_iff in E. rewrite E in H.
  exfalso. exact (Qle_not_lt _ _ H eq_refl).
Qed.


Lemma qmin_mono (c a b : Q) : a <= b -> qmin c a <= qmin c b.
Proof.
  intros Hab. unfold qmin.
  destruct (Qle_bool c a) eqn:Ha; destruct (Qle_bool c b) eqn:Hb.
  - apply Qle_refl.
  - apply Qle_bool_iff in Ha.
    assert (~ c <= b) by (intros H; apply Qle_bool_iff in H; congruence).
    exfalso. apply H. eapply Qle_trans; eassumption.
  - apply Qle_bool_iff in Hb.
    destruct (Qlt_le_dec a c) as [Hlt|Hge].
    + apply Qlt_le_weak; exact Hlt.
    + apply Qle_bool_iff in Hge. congruence.
  - exact Hab.
Qed.

Lemma qmax_mono (c a b : Q) : a <= b -> qmax c a <= qmax c b.
Proof.
  intros Hab. unfold qmax.
  destruct (Qle_bool c a) eqn:Ha; destruct (Qle_bool c b) eqn:Hb.
  - exact Hab.
  - apply Qle_bool_iff in Ha.
    assert (~ c <= b) by (intros H; apply Qle_bool_iff in H; congruence).
    exfalso. apply H. eapply Qle_trans; eassumption.
  - apply Qle_bool_iff in Hb. exact Hb.
  - apply Qle_refl.
Qed.

Lemma value_number (coerce : jsval -> jsnum) (v : Q) :
  exists v', to_number coerce (or_else (JNum v) (JNum 0)) = Num v' /\ v' == v.
Proof.
  unfold or_else. simpl. destruct (Qeq_bool v 0) eqn:E; simpl.
  - exists 0. split; [reflexivity|]. apply Qeq_bool_iff in E.
    symmetry; exact E.
  - exists v. split; reflexivity.
Qed.

(** The stroke width grows with [value]: of two edges with numeric values,
    the one with the larger value is drawn at least as wide. *)
Theorem link_width_monotone (coerce : jsval -> jsnum) (e1 e2 : VisualEdge)
  (v1 v2 : Q) :
  edge_get "value" e1 = JNum v1 ->
  edge_get "value" e2 = JNum v2 ->
  v1 <= v2 ->
  exists q1 q2,
    linkStrokeWidth coerce e1 = JNum q1 /\ linkStrokeWidth coerce e2 = JNum q2
    /\ q1 <= q2.
Proof.
  intros H1 H2 Hle.
  unfold linkStrokeWidth, math_max, math_min, num_div. rewrite H1, H2.
  destruct (value_number coerce v1) as (a & -> & Ha).
  destruct (value_number coerce v2) as (b & -> & Hb).
  simpl.
  set (w1 := qmax 1 (qmin 5 (a / 100000000))).
  set (w2 := qmax 1 (qmin 5 (b / 100000000))).
  exists w1, w2. unfold or_else. fold (JNum w1) (JNum w2).
  rewrite (at_least_one_truthy w1 (qmax_bounds 1 _)).
  rewrite (at_least_one_truthy w2 (qmax_bounds 1 _)).
  repeat split.
  apply qmax_mono, qmin_mono.
  unfold Qdiv. apply Qmult_le_compat_r; [|discriminate].
  rewrite Ha, Hb. exact Hle.
Qed.

Lemma link_width_monotone_witness :
  exists q1 q2,
    linkStrokeWidth no_coercion
      (build_edge (JObj [("source", JStr "A"); ("target", JStr "B");
                         ("value", JNum 200000000)])) = JNum q1
    /\ linkStrokeWidth no_coercion
         (build_edge (JObj [("source", JStr "A"); ("target", JStr "B");
                            ("value", JNum 400000000)])) = JNum q2
    /\ q1 <= q2.
Proof.
  apply (link_width_monotone no_coercion _ _ 200000000 400000000);
    [reflexivity | reflexivity | discriminate].
Defined.

Lemma edge_get_direction (raw : jsval) (s : string) :
  get "direction" raw = JStr s ->
  edge_get "direction" (build_edge raw) = JStr s.
Proof.
  intros H. unfold edge_get. simpl.
  destruct raw as [ | | | | | | | fs]; simpl in H; try discriminate.
  simpl. rewrite passthrough_keeps; try rewrite H; auto.
Qed.

Lemma lookup_absent (f : string * jsval -> bool) (k : string)
  (fs : list (string * jsval)) :
  ~ In k (map fst fs) -> lookup k (filter f fs) = JUndefined.
Proof.
  induction fs as [|[k' v'] rest IH]; intros Hno; simpl; [reflexivity|].
  simpl in Hno.
  assert (Hk : (k' =? k) = false)
    by (apply String.eqb_neq; intros ->; apply Hno; left; reflexivity).
  destruct (f (k', v')); simpl; rewrite ?Hk;
    apply IH; intros Hin; apply Hno; right; exact Hin.
Qed.

(** What the spread of a built edge or node holds under a name that is
    not excluded, for a payload object without repeated keys (as
    [JSON.parse] gives them): the payload's value, unless it is null,
    undefined or a function. *)
Lemma passthrough_lookup (exclude : list string) (k : string)
  (fs : list (string * jsval)) :
  NoDup (map fst fs) -> includes exclude k = false ->
  lookup k (passthrough exclude fs)
  = if is_nullish (lookup k fs) || is_function (lookup k fs)
    then JUndefined else lookup k fs.
Proof.
  intros Hnd Hex. induction fs as [|[k' v'] rest IH]; [reflexivity|].
  simpl in Hnd. inversion Hnd as [|? ? Hno Hrest]; subst.
  unfold passthrough in *. cbn [filter fst snd lookup].
  destruct (k' =? k) eqn:Hk.
  - apply String.eqb_eq in Hk. subst k'. rewrite Hex.
    destruct v' as [ | | b | [|q] | str | | xs | fs']; cbn;
      rewrite ?String.eqb_refl; try reflexivity;
      apply lookup_absent; exact Hno.
  - destruct (negb (includes exclude k') && negb (strict_eq v' JUndefined)
              && negb (strict_eq v' JNull) && negb (is_function v'));
      cbn [lookup]; rewrite ?Hk; apply IH; exact Hrest.
Qed.

Lemma get_entries (k : string) (raw : jsval) :
  get k raw = lookup k (entries raw).
Proof. destruct raw; reflexivity. Qed.

(** The direction of a payload edge reaches the renderer: an incoming edge
    is drawn green and an outgoing one red, whatever colour it carries.
    Every other edge, whether it has another direction or none, is drawn
    in its own colour, which the builder has already defaulted, so the
    renderer's fallback colour is never used. The payload edge is an
    object as [JSON.parse] gives it, without repeated keys. *)
Theorem link_colour_follows_direction (raw : jsval) :
  (get "direction" raw = JStr "incoming" ->
   linkStroke (build_edge raw) = hex "#10b981")
  /\ (get "direction" raw = JStr "outgoing" ->
      linkStroke (build_edge raw) = hex "#ef4444")
  /\ (NoDup (map fst (entries raw)) ->
      strict_eq (get "direction" raw) (JStr "incoming") = false ->
      strict_eq (get "direction" raw) (JStr "outgoing") = false ->
      linkStroke (build_edge raw)
      = Plain (or_else (get "color" raw) (JStr "#94a3b8"))).
Proof.
  split; [|split].
  - intros H. unfold linkStroke. rewrite (edge_get_direction _ _ H).
    reflexivity.
  - intros H. unfold linkStroke. rewrite (edge_get_direction _ _ H).
    reflexivity.
  - intros Hnd Hin Hout. unfold linkStroke.
    assert (Hdir : edge_get "direction" (build_edge raw)
                   = if is_nullish (get "direction" raw)
                        || is_function (get "direction" raw)
                     then JUndefined else get "direction" raw).
    { rewrite get_entries.
      change (edge_get "direction" (build_edge raw))
        with (lookup "direction" (passthrough edge_exclude (entries raw))).
      apply passthrough_lookup; [exact Hnd | reflexivity]. }
    rewrite Hdir.
    destruct (is_nullish (get "direction" raw)
              || is_function (get "direction" raw)).
    + cbn [strict_eq]. f_equal.
      change (edge_get "color" (build_edge raw))
        with (or_else (get "color" raw) (JStr "#94a3b8")).
      unfold or_else at 1.
      rewrite (or_else_truthy (get "color" raw) (JStr "#94a3b8") eq_refl).
      reflexivity.
    + rewrite Hin, Hout. f_equal.
      change (edge_get "color" (build_edge raw))
        with (or_else (get "color" raw) (JStr "#94a3b8")).
      unfold or_else at 1.
      rewrite (or_else_truthy (get "color" raw) (JStr "#94a3b8") eq_refl).
      reflexivity.
Qed.

Lemma link_colour_follows_direction_witness :
  let raw := JObj [("source", JStr "A"); ("target", JStr "B");
                   ("color", JStr "#ffffff");
                   ("direction", JStr "sideways")] in
  NoDup (map fst (entries raw))
  /\ linkStroke (build_edge raw) = hex "#ffffff".
Proof.
  intros raw.
  assert (Hnd : NoDup (map fst (entries raw))).
  { repeat (constructor; [simpl; intuition discriminate|]). constructor. }
  split; [exact Hnd|].
  apply (proj2 (proj2 (link_colour_follows_direction raw)) Hnd);
    reflexivity.
Defined.

End LinkFacts.

(** ** The detection request and the result panel *)

Module RequestFacts.

Import Request BuilderFacts.

(** What the service is sent for a built graph: every node under its id
    with type "circle", never the kind of the payload and never "unknown";
    every edge with the built weight as [value], which is truthy, so the
    fallbacks to [e.value] and to 1 are never used; and a string endpoint
    as it is. *)
Theorem request_sends_circles_and_weights (random : nat -> Q)
  (container : bool) (graphData : jsval) (g : Graph) :
  initializeGraph random container graphData = Built g ->
  (forall n, In n (nodes g) ->
             get "id" (request_node n) = JStr (node_id n)
             /\ get "type" (request_node n) = JStr "circle")
  /\ (forall e, In e (edges g) ->
                get "value" (request_edge e) = edge_weight e
                /\ truthy (get "value" (request_edge e)) = true
                /\ (forall s, edge_source e = JStr s ->
                              get "source" (request_edge e) = JStr s)
                /\ (forall s, edge_target e = JStr s ->
                              get "target" (request_edge e) = JStr s)).
Proof.
  intros Hb. split.
  - intros n Hin.
    destruct (built_node_fixed _ _ _ _ _ Hb Hin) as [Ht _].
    unfold request_node. simpl. unfold node_get. simpl. rewrite Ht.
    split; reflexivity.
  - intros e Hin.
    destruct (built_edge_origin _ _ _ _ _ Hb Hin) as (es & raw & _ & _ & _ & ->).
    assert (Hw : truthy (edge_weight (build_edge raw)) = true)
      by (simpl; apply or_else_truthy; reflexivity).
    assert (Hv : get "value" (request_edge (build_edge raw))
                 = edge_weight (build_edge raw)).
    { unfold request_edge. cbn [get lookup String.eqb Ascii.eqb Bool.eqb].
      change (edge_get "weight" (build_edge raw))
        with (edge_weight (build_edge raw)).
      unfold or_else at 1. rewrite Hw. reflexivity. }
    rewrite Hv. split; [reflexivity|]. split; [exact Hw|].
    split; intros s Hs; unfold request_edge;
      cbn [get lookup String.eqb Ascii.eqb Bool.eqb].
    + change (edge_get "source" (build_edge raw))
        with (edge_source (build_edge raw)). rewrite Hs. reflexivity.
    + change (edge_get "target" (build_edge raw))
        with (edge_target (build_edge raw)). rewrite Hs. reflexivity.
Qed.

Lemma request_sends_circles_and_weights_witness :
  let raw := JObj [("id", JStr "A"); ("type", JStr "address")] in
  let n := fst (build_node zero_random raw 0) in
  get "type" (Request.request_node n) = JStr "circle".
Proof.
  intros raw n.
  apply (proj1 (request_sends_circles_and_weights zero_random true
                  (payload [raw] []) {| nodes := [n]; edges := [] |}
                  eq_refl) n).
  left. reflexivity.
Defined.

End RequestFacts.

Module PanelFacts.

Import Panel.

Lemma Qle_bool_inject_Z (a b : Z) :
  Qle_bool (inject_Z a) (inject_Z b) = (a <=? b)%Z.
Proof. unfold Qle_bool. simpl. rewrite !Z.mul_1_r. reflexivity. Qed.

Lemma larger_array (coerce : jsval -> jsnum)
  (object_gt : jsval -> jsval -> bool) (n : nat) (items : list jsval) :
  larger coerce object_gt (Some (of_nat n)) (JArr items)
  = Some (of_nat (Nat.max n (List.length items))).
Proof.
  unfold larger, length_of, js_gt, of_nat. simpl.
  rewrite Qle_bool_inject_Z.
  destruct (Z.leb_spec (Z.of_nat (List.length items)) (Z.of_nat n)); simpl.
  - rewrite Nat.max_l by lia. reflexivity.
  - rewrite Nat.max_r by lia. reflexivity.
Qed.

Lemma fold_larger_arrays (coerce : jsval -> jsnum)
  (object_gt : jsval -> jsval -> bool) (vs : list jsval) :
  (forall v, In v vs -> exists items, v = JArr items) ->
  forall n : nat,
  exists m : nat,
    fold_left (larger coerce object_gt) vs (Some (of_nat n))
    = Some (of_nat m)
    /\ (n <= m)%nat
    /\ (forall items, In (JArr items) vs -> (List.length items <= m)%nat)
    /\ (m = n \/ exists items, In (JArr items) vs /\ List.length items = m).
Proof.
  induction vs as [|v rest IH]; intros Hall n; cbn [fold_left].
  - exists n. repeat split; auto. intros items [].
  - destruct (Hall v (or_introl eq_refl)) as [items ->].
    rewrite larger_array.
    destruct (IH (fun w Hw => Hall w (or_intror Hw))
                 (Nat.max n (List.length items)))
      as (m & Hfold & Hge & Hall' & Hatt).
    exists m. split; [exact Hfold|]. split; [lia|]. split.
    + intros items' [Heq|Hin].
      * injection Heq as <-. lia.
      * apply Hall'. exact Hin.
    + destruct Hatt as [Hm|(items' & Hin & Hlen)].
      * destruct (Nat.max_spec n (List.length items)) as [[_ Hmax]|[_ Hmax]].
        -- right. exists items. split; [left; reflexivity | lia].
        -- left. lia.
      * right. exists items'. split; [right; exact Hin | exact Hlen].
Qed.

(** When the stored result lists its communities as arrays of members, the
    "largest size" the panel shows is the size of a largest community: no
    community is larger, and unless there is none, one has exactly that
    size. *)
Theorem largest_community_is_maximum (coerce : jsval -> jsnum)
  (object_gt : jsval -> jsval -> bool) (c : jsval) :
  truthy (get "communities" c) = true ->
  (forall v, In v (values (get "communities" c)) -> exists items, v = JArr items) ->
  exists m : nat,
    largestCommunity coerce object_gt (Some c) = Some (of_nat m)
    /\ (forall items, In (JArr items) (values (get "communities" c)) ->
                      (List.length items <= m)%nat)
    /\ (m = 0%nat
        \/ exists items, In (JArr items) (values (get "communities" c))
                         /\ List.length items = m).
Proof.
  intros Ht Hall. unfold largestCommunity. rewrite Ht.
  destruct (fold_larger_arrays coerce object_gt _ Hall 0)
    as (m & Hfold & _ & Hmax & Hatt).
  exists m. split; [exact Hfold|]. split; [exact Hmax | exact Hatt].
Qed.

Lemma largest_community_is_maximum_witness :
  let c := JObj [("communities",
                  JObj [("0", JArr [JStr "A"; JStr "B"; JStr "C"]);
                        ("1", JArr [JStr "D"])])] in
  exists m : nat,
    largestCommunity no_coercion (fun _ _ => false) (Some c)
    = Some (of_nat m)
    /\ (forall items, In (JArr items) (values (get "communities" c)) ->
                      (List.length items <= m)%nat)
    /\ (m = 0%nat
        \/ exists items, In (JArr items) (values (get "communities" c))
                         /\ List.length items = m).
Proof.
  intros c.
  apply (largest_community_is_maximum no_coercion (fun _ _ => false) c
           eq_refl).
  intros v [<-|[<-|[]]]; eexists; reflexivity.
Defined.

End PanelFacts.

(** ** Further properties of the overlay session *)

Module SessionFacts.

Import BuilderFacts OverlayFacts Toolbar.

(** However the awaited fetch settles, the resumed call ends the loading
    state and shows exactly one notice: the success toast, leaving [error]
    as it was, or the failure toast together with the error. *)
Theorem every_answer_ends_loading (coerce : jsval -> jsnum)
  (inherited : realm) (o : fetch_outcome) (s : State) :
  let s' := runLouvainAlgorithm_resume coerce inherited o s in
  isLoading s' = false
  /\ ((toasts s' = toasts s ++ [ToastSuccess] /\ error s' = error s)
      \/ (toasts s' = toasts s ++ [ToastError "Failed to detect communities"]
          /\ error s' = Some "Community detection failed")).
Proof.
  destruct o as [|[|] [result|]]; simpl;
    try (split; [reflexivity | right; split; reflexivity]).
  destruct (truthy (get "success" result)); simpl;
    [|split; [reflexivity | right; split; reflexivity]].
  destruct (is_nullish (get "data" result)); simpl;
    [split; [reflexivity | right; split; reflexivity]|].
  destruct (svg s) as [cs|];
    [destruct (truthy (get "partition" (get "data" result)))|];
    destruct (get "modularity" (get "data" result)); simpl;
    (split; [reflexivity|]);
    try (left; split; reflexivity); right; split; reflexivity.
Qed.

Section Desk.

Variable coerce : jsval -> jsnum.
Variable inherited : realm.
Variable graphData : jsval.

Local Abbreviation ui_step := (ui_step coerce inherited graphData).
Local Abbreviation ui_run := (ui_run coerce inherited graphData).

Lemma resume_keeps_graph (o : fetch_outcome) (s : State) :
  graph (runLouvainAlgorithm_resume coerce inherited o s) = graph s
  /\ fetches (runLouvainAlgorithm_resume coerce inherited o s) = fetches s.
Proof.
  destruct o as [|[|] [result|]]; simpl; try (split; reflexivity).
  destruct (truthy (get "success" result)); simpl; [|split; reflexivity].
  destruct (is_nullish (get "data" result)); simpl; [split; reflexivity|].
  destruct (svg s) as [cs|];
    [destruct (truthy (get "partition" (get "data" result)))|];
    destruct (get "modularity" (get "data" result)); split; reflexivity.
Qed.

Lemma layout_keeps (s : State) :
  graph (runForceAtlas2 s) = graph s
  /\ fetches (runForceAtlas2 s) = fetches s
  /\ svg (runForceAtlas2 s) = svg s.
Proof.
  unfold runForceAtlas2. destruct (negb (simulation s)); repeat split.
Qed.

Lemma reset_keeps (random : nat -> Q) (s : State) :
  fetches (resetGraph graphData random s) = fetches s
  /\ svg (resetGraph graphData random s) = svg s.
Proof.
  unfold resetGraph.
  destruct (is_nullish graphData); [split; reflexivity|].
  destruct (as_list (get "nodes" graphData));
    destruct (as_list (get "edges" graphData)); split; reflexivity.
Qed.

Lemma export_keeps (throws : bool) (s : State) :
  graph (exportAsImage throws s) = graph s
  /\ fetches (exportAsImage throws s) = fetches s
  /\ svg (exportAsImage throws s) = svg s.
Proof.
  unfold exportAsImage.
  destruct (svg s) eqn:Hsvg; [destruct throws|]; repeat split;
    simpl; auto.
Qed.

Lemma louvain_keeps (s : State) :
  graph (runLouvainAlgorithm s) = graph s
  /\ svg (runLouvainAlgorithm s) = svg s.
Proof.
  unfold runLouvainAlgorithm.
  destruct ((List.length (nodes (graph s)) =? 0)%nat
            || (List.length (edges (graph s)) =? 0)%nat); split; reflexivity.
Qed.

(** A request leaves the component through exactly one door: a press of
    Run Louvain while the toolbar is rendered (graph data, no error panel,
    not fullscreen) and the button enabled (nothing loading, container
    ready), over a graph that has nodes and edges. Such a press sends
    exactly one request; no other event, and no other press, sends any. *)
Theorem requests_only_from_enabled_button (d : Desk) (e : ui_event) :
  fetches (state (ui_step d e))
  = if sends_request graphData d e then S (fetches (state d))
    else fetches (state d).
Proof.
  destruct e as [[| |random|throws| | |]|req o| |];
    cbn [Toolbar.ui_step sends_request].
  - destruct (toolbar_shown graphData d && enabled RunLayout (state d));
      [|reflexivity].
    apply (layout_keeps (state d)).
  - destruct (toolbar_shown graphData d && enabled RunLouvain (state d));
      [|reflexivity].
    cbn [with_state state onClick]. unfold runLouvainAlgorithm.
    destruct (nodes (graph (state d))) as [|n ns]; [reflexivity|].
    destruct (edges (graph (state d))) as [|x xs]; reflexivity.
  - destruct (toolbar_shown graphData d && enabled (Reset random) (state d));
      [|reflexivity].
    apply (reset_keeps random (state d)).
  - destruct (toolbar_shown graphData d && enabled (Export throws) (state d));
      [|reflexivity].
    apply (export_keeps throws (state d)).
  - destruct (toolbar_shown graphData d && enabled ZoomIn (state d));
      reflexivity.
  - destruct (toolbar_shown graphData d && enabled ResetZoom (state d));
      reflexivity.
  - destruct (toolbar_shown graphData d && enabled ZoomOut (state d));
      reflexivity.
  - apply (resume_keeps_graph o (state d)).
  - apply (layout_keeps (state d)).
  - reflexivity.
Qed.

Lemma overlay_keeps_shape (data : jsval) (cs : list Circle) :
  map shape (applyCommunityColors coerce inherited data cs) = map shape cs.
Proof.
  rewrite applyCommunityColors_spec, map_map. apply map_ext. intros c.
  unfold shape.
  destruct (first_met_colours_datum inherited (palette coerce data)
              (get "partition" data)
              (encounter_order inherited (get "partition" data)
                               (map datum cs) []) c)
    as [-> ->].
  reflexivity.
Qed.

Lemma resume_keeps_shape (o : fetch_outcome) (s : State) :
  option_map (map shape) (svg (runLouvainAlgorithm_resume coerce inherited o s))
  = option_map (map shape) (svg s).
Proof.
  destruct o as [|[|] [result|]]; simpl; try reflexivity.
  destruct (truthy (get "success" result)); simpl; [|reflexivity].
  destruct (is_nullish (get "data" result)); simpl; [reflexivity|].
  destruct (svg s) as [cs|] eqn:Hsvg.
  - destruct (truthy (get "partition" (get "data" result)));
      destruct (get "modularity" (get "data" result)); simpl;
      rewrite ?Hsvg; simpl; rewrite ?overlay_keeps_shape; reflexivity.
  - destruct (get "modularity" (get "data" result)); simpl;
      rewrite Hsvg; reflexivity.
Qed.

Lemma ui_step_keeps_shape (d : Desk) (e : ui_event) :
  option_map (map shape) (svg (state (ui_step d e)))
  = option_map (map shape) (svg (state d)).
Proof.
  destruct e as [b|req o| |]; cbn [Toolbar.ui_step].
  - destruct (toolbar_shown graphData d && enabled b (state d));
      [|reflexivity].
    cbn [with_state state].
    destruct b as [| |random|throws| | |]; cbn [onClick]; try reflexivity.
    + rewrite (proj2 (proj2 (layout_keeps (state d)))). reflexivity.
    + rewrite (proj2 (louvain_keeps (state d))). reflexivity.
    + rewrite (proj2 (reset_keeps random (state d))). reflexivity.
    + rewrite (proj2 (proj2 (export_keeps throws (state d)))). reflexivity.
  - apply resume_keeps_shape.
  - cbn [with_state state].
    rewrite (proj2 (proj2 (layout_keeps (state d)))). reflexivity.
  - reflexivity.
Qed.

Lemma ui_step_keeps_graph (d : Desk) (e : ui_event) :
  is_reset e = false ->
  graph (state (ui_step d e)) = graph (state d).
Proof.
  destruct e as [[| |random|throws| | |]|req o| |];
    cbn [Toolbar.ui_step is_reset]; intros Hr; try discriminate.
  - destruct (toolbar_shown graphData d && enabled RunLayout (state d));
      [|reflexivity].
    apply (layout_keeps (state d)).
  - destruct (toolbar_shown graphData d && enabled RunLouvain (state d));
      [|reflexivity].
    apply (louvain_keeps (state d)).
  - destruct (toolbar_shown graphData d && enabled (Export throws) (state d));
      [|reflexivity].
    apply (export_keeps throws (state d)).
  - destruct (toolbar_shown graphData d && enabled ZoomIn (state d));
      reflexivity.
  - destruct (toolbar_shown graphData d && enabled ResetZoom (state d));
      reflexivity.
  - destruct (toolbar_shown graphData d && enabled ZoomOut (state d));
      reflexivity.
  - apply (resume_keeps_graph o (state d)).
  - apply (layout_keeps (state d)).
  - reflexivity.
Qed.

(** No toolbar handler and no answer of the service redraws the circles:
    through any sequence of toolbar presses (Run Layout, Run Louvain,
    Reset, Export, the zoom buttons), answers (good or bad) and layout
    timers, every circle stays
    bound to its node, keeps its place in the order and its radius; the
    overlay changes fill, stroke and stroke width only. The graph in
    [graphRef] is replaced by Reset alone, which draws nothing: without a
    Reset the graph stays the same. *)
Theorem overlay_is_decoration_only (tr : list ui_event) (d : Desk) :
  option_map (map shape) (svg (state (ui_run d tr)))
  = option_map (map shape) (svg (state d))
  /\ (forallb (fun e => negb (is_reset e)) tr = true ->
      graph (state (ui_run d tr)) = graph (state d)).
Proof.
  unfold Toolbar.ui_run. revert d.
  induction tr as [|e rest IH]; intros d; simpl; [split; reflexivity|].
  destruct (IH (ui_step d e)) as [Hs Hg].
  split.
  - rewrite Hs. apply ui_step_keeps_shape.
  - intros Hall. apply andb_prop in Hall. destruct Hall as [He Hrest].
    rewrite (Hg Hrest). apply ui_step_keeps_graph.
    apply negb_true_iff. exact He.
Qed.

End Desk.

Lemma overlay_is_decoration_only_witness :
  let d := mkDesk (sample_state []) false in
  let tr := [Press RunLouvain;
             Settles 1 (answer [("partition", partition_AB 0 1);
                                ("num_communities", JNum 2);
                                ("modularity", JNum (42 # 100))]);
             Press RunLayout; Timer] in
  graph (state (ui_run no_coercion plain_objects
                       (payload [obj_id "A"; obj_id "B"] [raw_edge "A" "B"])
                       d tr))
  = sample_graph.
Proof.
  intros d tr.
  apply (proj2 (overlay_is_decoration_only no_coercion plain_objects
                  (payload [obj_id "A"; obj_id "B"] [raw_edge "A" "B"])
                  tr d)).
  reflexivity.
Defined.

(** Reset replaces the graph and leaves the drawing as it is: after a
    Reset on a payload that has lost node B the circles still stand for A
    and B. *)
Example reset_does_not_redraw :
  let d := mkDesk (sample_state []) false in
  let d' := ui_step no_coercion plain_objects (payload [obj_id "A"] [])
                    d (Press (Reset zero_random)) in
  map node_id (nodes (graph (state d'))) = ["A"]
  /\ option_map (map (fun c => node_id (datum c))) (svg (state d'))
     = Some ["A"; "B"].
Proof. split; reflexivity. Qed.

End SessionFacts.

(** ** Colours of the overlay *)

Module PaletteFacts.

Import BuilderFacts OverlayFacts.











End PaletteFacts.

Module FallbackFacts.

Import BuilderFacts OverlayFacts.




(** A node named like something every object inherits is not outside the
    partition: the overlay recolours it although the answer does not
    mention it. *)
Example inherited_name_is_recoloured :
  let data := JObj [("partition", JObj [("B", JNum 0)]);
                    ("num_communities", JNum 1)] in
  let n := fst (build_node zero_random (obj_id "constructor") 0) in
  map attr_fill
      (applyCommunityColors no_coercion plain_objects data
         (draw_circles no_coercion [] (mkGraph [n] [])))
  = [hex "#1f77b4"].
Proof. reflexivity. Qed.

End FallbackFacts.

(** ** Further properties of the zoom controls *)

Module ViewFacts.

Import Zoom.

Open Scope Q_scope.



(** At the upper edge of the extent a wheel-in that opens a gesture is
    dropped: once a pinch has brought the scale to 10, the wheel leaves
    everything as it is. *)
Example wheel_at_the_edge_is_dropped :
  let v := handle_all 800 600 initial_view [Gesture 20 400 300] in
  k (zoom_prop v) == 10
  /\ handle 800 600 v (WheelStart 2 400 300) = v.
Proof. vm_compute. split; reflexivity. Qed.

End ViewFacts.

(** ** Further properties of dragging *)

Module DragFacts.

Import Simulation SimulationFacts.

Open Scope Q_scope.

Lemma update_other (f : Body -> Body) (bs : list Body) :
  forall i j : nat,
    i <> j -> nth_error (update i f bs) j = nth_error bs j.
Proof.
  unfold update.
  induction bs as [|b rest IH]; intros i j Hij.
  - destruct i; reflexivity.
  - destruct i as [|i]; destruct j as [|j]; simpl; try reflexivity;
      try (exfalso; apply Hij; reflexivity).
    + destruct (nth_error rest i); reflexivity.
    + specialize (IH i j (fun E => Hij (f_equal S E))).
      destruct (nth_error rest i); simpl in *; exact IH.
Qed.

Lemma update_length (f : Body -> Body) (bs : list Body) (i : nat) :
  List.length (update i f bs) = List.length bs.
Proof.
  unfold update. destruct (nth_error bs i) as [b|] eqn:Hb; [|reflexivity].
  assert (Hlt : (i < List.length bs)%nat) by (apply nth_error_Some; congruence).
  rewrite length_app, length_firstn. cbn [List.length].
  rewrite length_skipn. lia.
Qed.

Section WithForces.

Variable forces : Q -> list Body -> nat -> Q * Q * Q * Q.
Variables velocityDecay alphaDecay : Q.

Local Abbreviation tick := (tick forces velocityDecay alphaDecay).
Local Abbreviation drag_run := (drag_run forces velocityDecay alphaDecay).

Lemma integrate_pins (b : Body) :
  pins (integrate velocityDecay b) = pins b.
Proof.
  unfold integrate, pins.
  destruct (fx b), (fy b); reflexivity.
Qed.

Lemma tick_keeps_pins (s : Sim) (j : nat) :
  pinned j (tick s) = pinned j s.
Proof.
  unfold pinned.
  rewrite (nth_error_tick forces velocityDecay alphaDecay s j).
  destruct (nth_error (bodies s) j) as [b|]; simpl; [|reflexivity].
  rewrite integrate_pins, pushed_pins. reflexivity.
Qed.

Lemma push_from_length (a : Q) (bs rest : list Body) :
  forall j : nat, List.length (push_from forces a bs j rest) = List.length rest.
Proof.
  induction rest as [|b rest' IH]; intros j; simpl; [reflexivity|].
  rewrite IH. reflexivity.
Qed.

Lemma tick_length (s : Sim) :
  List.length (bodies (tick s)) = List.length (bodies s).
Proof.
  simpl. rewrite length_map. unfold apply_forces. apply push_from_length.
Qed.

Lemma drag_run_others (i j : nat) (es : list during_drag) :
  i <> j ->
  forall s : Sim,
    pinned j (drag_run i s es) = pinned j s
    /\ List.length (bodies (drag_run i s es)) = List.length (bodies s).
Proof.
  intros Hij. unfold Simulation.drag_run.
  induction es as [|e rest IH]; intros s; simpl; [split; reflexivity|].
  destruct (IH (drag_step forces velocityDecay alphaDecay i s e)) as [-> ->].
  destruct e as [|ex ey]; simpl.
  - split; [apply tick_keeps_pins | apply tick_length].
  - unfold pinned. simpl. rewrite (update_other _ _ i j Hij), update_length.
    split; reflexivity.
Qed.

(** A drag touches the dragged node only. From drag start, through any run
    of ticks and pointer moves, to drag end, every other node is pinned or
    free exactly as it was, and no node is added or lost. *)
Theorem drag_leaves_other_nodes (s : Sim) (i j : nat)
  (es : list during_drag) :
  i <> j ->
  let s' := drag_end i (drag_run i (drag_start i s) es) in
  pinned j s' = pinned j s
  /\ List.length (bodies s') = List.length (bodies s).
Proof.
  intros Hij s'. unfold s', pinned. simpl.
  rewrite (update_other _ _ i j Hij), update_length.
  destruct (drag_run_others i j es Hij (drag_start i s)) as [Hp Hl].
  unfold pinned in Hp. rewrite Hp, Hl. simpl.
  rewrite (update_other _ _ i j Hij), update_length. split; reflexivity.
Qed.

End WithForces.

Lemma drag_leaves_other_nodes_witness :
  let s' := drag_end 1
              (drag_run sample_forces (6 # 10) (2 # 100) 1
                        (drag_start 1 sample_sim) [Tick; Move 30 40; Tick]) in
  pinned 0 s' = pinned 0 sample_sim
  /\ List.length (bodies s') = List.length (bodies sample_sim).
Proof.
  intros s'.
  apply (drag_leaves_other_nodes sample_forces (6 # 10) (2 # 100)
           sample_sim 1 0 [Tick; Move 30 40; Tick]).
  discriminate.
Defined.

End DragFacts.

(** ** Further properties of mounting, resizing and teardown *)

Module MountFacts.

Import Lifecycle Teardown.

Lemma count_after (line : string) (p : Page) :
  initializations (logger line p)
  = (initializations p
     + (if String.eqb msg_initialized line then 1 else 0))%nat.
Proof.
  unfold initializations, logger. cbn [log].
  rewrite filter_app, length_app. cbn [filter].
  destruct (String.eqb msg_initialized line); cbn [List.length]; lia.
Qed.

Section WithEnvironment.

Variable random : nat -> Q.
Variable coerce : jsval -> jsnum.
Variable illicitAddresses : list IllicitFlag.

Local Abbreviation initializeD3 := (initializeD3 coerce illicitAddresses).
Local Abbreviation mount := (mount random coerce illicitAddresses).
Local Abbreviation resize := (resize coerce illicitAddresses).
Local Abbreviation host_step := (host_step coerce illicitAddresses).
Local Abbreviation host_run := (host_run coerce illicitAddresses).

(** What one call of [initializeD3] can do to the page. *)
Lemma initializeD3_effect (g : Graph) (p : Page) :
  let p' := fst (initializeD3 g p) in
  (initializations p' = initializations p
   \/ initializations p' = S (initializations p))
  /\ (containerReady p = true -> containerReady p' = true)
  /\ resizeObserverRef p' = resizeObserverRef p
  /\ graphRef p' = graphRef p
  /\ (svgRef p = None -> containerReady p = false ->
      (clientWidth p = 0 \/ clientHeight p = 0)%Z ->
      svgRef p' = None /\ containerReady p' = false
      /\ initializations p' = initializations p).
Proof.
  unfold Lifecycle.initializeD3.
  destruct ((clientWidth p =? 0)%Z || (clientHeight p =? 0)%Z) eqn:Hz.
  - cbn [fst]. rewrite count_after.
    change (String.eqb msg_initialized msg_postponed) with false.
    rewrite Nat.add_0_r.
    split; [left; reflexivity|]. split; [auto|].
    split; [reflexivity|]. split; [reflexivity|].
    intros Hs Hr _. auto.
  - assert (Hsized : ~ (clientWidth p = 0 \/ clientHeight p = 0)%Z).
    { apply orb_false_elim in Hz. destruct Hz as [Hw Hh].
      apply Z.eqb_neq in Hw. apply Z.eqb_neq in Hh. intros [H|H]; auto. }
    destruct (links_resolve g); cbn [fst].
    + rewrite count_after. rewrite String.eqb_refl.
      split;
        [right; unfold initializations;
         cbn [log setContainerReady set_simulationRef set_svgRef]; lia|].
      split; [reflexivity|].
      split; [reflexivity|]. split; [reflexivity|].
      intros _ _ H. contradiction.
    + change (initializations
                (setError (Some "Renderer initialization failed")
                   (logger "Failed to initialize D3 renderer"
                      (set_svgRef (draw_circles coerce illicitAddresses g) p))))
        with (initializations
                (logger "Failed to initialize D3 renderer"
                   (set_svgRef (draw_circles coerce illicitAddresses g) p))).
      rewrite count_after.
      change (String.eqb msg_initialized "Failed to initialize D3 renderer")
        with false.
      rewrite Nat.add_0_r.
      split; [left; reflexivity|]. split; [auto|].
      split; [reflexivity|]. split; [reflexivity|].
      intros _ _ H. contradiction.
Qed.

(** The first mount on a container that has a size, for a payload the
    builder accepts, ends in one of two ways. If no tooltip throws and
    every endpoint resolves to a node, the renderer is initialized once,
    the circles of the built graph are drawn, the simulation runs, the
    container is ready and the resize observer is installed (for payload
    and flag fields that are plain values). If the tooltip of some flagged node
    throws (its flag has no [sources] array, say) or some endpoint names no
    node, the renderer fails: the error is set, the container is not ready
    and no observer is installed. And a mount while the error panel is
    shown finds no container: it clears the error and builds nothing. *)
Theorem mount_outcome (w h : Z) (graphData : jsval) (g : Graph) :
  initializeGraph random true graphData = Built g ->
  w <> 0%Z -> h <> 0%Z ->
  let p' := Renderer.mount random coerce illicitAddresses graphData
                           (fresh w h) in
  let throws := existsb (tooltip_throws coerce illicitAddresses) (nodes g) in
  graphRef p' = g
  /\ (throws = false -> links_resolve g = true ->
      Renderer.plain_fields g = true ->
      Renderer.plain_flags illicitAddresses = true ->
      svgRef p' = Some (draw_circles coerce illicitAddresses g)
      /\ containerReady p' = true /\ resizeObserverRef p' = true
      /\ simulationRef p' = true /\ error p' = None
      /\ initializations p' = 1%nat)
  /\ (throws = true \/ links_resolve g = false ->
      containerReady p' = false /\ resizeObserverRef p' = false
      /\ error p' = Some "Renderer initialization failed"
      /\ initializations p' = 0%nat)
  /\ (forall (p : Page) (e : string),
         error p = Some e ->
         Renderer.mount random coerce illicitAddresses graphData p
         = setContainerReady false (setError None p)).
Proof.
  intros Hb Hw Hh.
  assert (Ht : truthy graphData = true).
  { unfold initializeGraph in Hb.
    destruct (truthy graphData); [reflexivity | discriminate]. }
  apply Z.eqb_neq in Hw. apply Z.eqb_neq in Hh.
  split; [|split; [|split]].
  - unfold Renderer.mount, mount_with. rewrite Ht.
    change (container_mounted (fresh w h)) with true.
    cbn [negb]. rewrite Hb.
    unfold Renderer.initializeD3, Renderer.sized, Lifecycle.initializeD3.
    cbn [negb clientWidth clientHeight logger set_graphRef setContainerReady
         setError fresh]. rewrite Hw, Hh. cbn [orb negb andb].
    destruct (existsb (tooltip_throws coerce illicitAddresses) (nodes g));
      [reflexivity|].
    destruct (links_resolve g); reflexivity.
  - intros Hthrows Hlinks _ _.
    unfold Renderer.mount, mount_with. rewrite Ht.
    change (container_mounted (fresh w h)) with true.
    cbn [negb]. rewrite Hb.
    unfold Renderer.initializeD3, Renderer.sized, Lifecycle.initializeD3.
    cbn [negb clientWidth clientHeight logger set_graphRef setContainerReady
         setError fresh]. rewrite Hw, Hh. cbn [orb negb andb].
    rewrite Hthrows, Hlinks.
    repeat split; reflexivity.
  - intros Hfail.
    unfold Renderer.mount, mount_with. rewrite Ht.
    change (container_mounted (fresh w h)) with true.
    cbn [negb]. rewrite Hb.
    unfold Renderer.initializeD3, Renderer.sized, Lifecycle.initializeD3.
    cbn [negb clientWidth clientHeight logger set_graphRef setContainerReady
         setError fresh]. rewrite Hw, Hh. cbn [orb negb andb].
    destruct (existsb (tooltip_throws coerce illicitAddresses) (nodes g));
      [repeat split; reflexivity|].
    destruct Hfail as [Hfail|Hfail]; [discriminate|].
    rewrite Hfail. repeat split; reflexivity.
  - intros p e He.
    unfold Renderer.mount, mount_with, container_mounted.
    rewrite Ht, He. cbn [negb].
    unfold initializeGraph. rewrite Ht. reflexivity.
Qed.

(** A resize or a fullscreen change initializes the renderer at most once,
    and never takes readiness away: over any sequence of such events the
    number of initializations grows by at most the number of events, and
    a container that was ready stays ready. *)
Theorem host_events_initialize_at_most_once_each (tr : list host_event) :
  forall p : Page,
    (initializations p <= initializations (host_run p tr)
     <= initializations p + List.length tr)%nat
    /\ (containerReady p = true -> containerReady (host_run p tr) = true).
Proof.
  unfold Teardown.host_run.
  induction tr as [|e rest IH]; intros p; simpl; [split; [lia | auto]|].
  destruct (IH (host_step p e)) as [Hcount Hready].
  assert (Hstep : (initializations (host_step p e) = initializations p
                   \/ initializations (host_step p e) = S (initializations p))
                  /\ (containerReady p = true ->
                      containerReady (host_step p e) = true)).
  { destruct e as [w h|]; simpl.
    - unfold Lifecycle.resize.
      destruct (resizeObserverRef (resize_container w h p)).
      + destruct (initializeD3_effect (graphRef (resize_container w h p))
                    (resize_container w h p)) as (Hc & Hr & _).
        split; [exact Hc | exact Hr].
      + split; [left; reflexivity | auto].
    - unfold fullscreen_timer. destruct (svgRef p).
      + destruct (initializeD3_effect (graphRef p) p) as (Hc & Hr & _).
        split; [exact Hc | exact Hr].
      + split; [left; reflexivity | auto]. }
  destruct Hstep as [Hc Hr]. split; [lia | auto].
Qed.

Lemma stuck_step (p : Page) (e : host_event) :
  svgRef p = None -> resizeObserverRef p = false ->
  svgRef (host_step p e) = None
  /\ resizeObserverRef (host_step p e) = false
  /\ containerReady (host_step p e) = containerReady p
  /\ initializations (host_step p e) = initializations p.
Proof.
  intros Hsvg Hobs. destruct e as [w h|]; simpl.
  - unfold Lifecycle.resize. simpl. rewrite Hobs. simpl. auto.
  - unfold fullscreen_timer. rewrite Hsvg. auto.
Qed.

Lemma stuck_run (tr : list host_event) :
  forall p : Page,
    svgRef p = None -> resizeObserverRef p = false ->
    svgRef (host_run p tr) = None
    /\ containerReady (host_run p tr) = containerReady p
    /\ initializations (host_run p tr) = initializations p.
Proof.
  unfold Teardown.host_run.
  induction tr as [|e rest IH]; intros p Hsvg Hobs; simpl; [auto|].
  destruct (stuck_step p e Hsvg Hobs) as (Hs & Ho & Hr & Hc).
  destruct (IH _ Hs Ho) as (Hs' & Hr' & Hc').
  rewrite Hr', Hc', Hr, Hc. auto.
Qed.

(** A component first mounted on a container without width or height is
    never initialized by the host alone: whatever the payload, and
    whatever resizes and fullscreen changes follow, no svg is drawn, the
    renderer is initialized zero times and the container never becomes
    ready. *)
Theorem sizeless_mount_stays_uninitialized (w h : Z) (graphData : jsval)
  (tr : list host_event) :
  (w = 0 \/ h = 0)%Z ->
  let p := host_run (mount graphData (fresh w h)) tr in
  svgRef p = None /\ containerReady p = false
  /\ initializations p = 0%nat.
Proof.
  intros Hzero.
  assert (Hm : svgRef (mount graphData (fresh w h)) = None
               /\ resizeObserverRef (mount graphData (fresh w h)) = false
               /\ containerReady (mount graphData (fresh w h)) = false
               /\ initializations (mount graphData (fresh w h)) = 0%nat).
  { unfold Lifecycle.mount, mount_with.
    destruct (negb (truthy graphData)); [repeat split; reflexivity|].
    change (container_mounted (fresh w h)) with true.
    destruct (initializeGraph random true graphData) as [g| |];
      try (repeat split; reflexivity).
    unfold Lifecycle.initializeD3. simpl.
    assert (Hz : ((w =? 0)%Z || (h =? 0)%Z) = true).
    { destruct Hzero as [->| ->]; simpl; [reflexivity|].
      apply orb_true_r. }
    rewrite Hz. simpl. repeat split; reflexivity. }
  destruct Hm as (Hs & Ho & Hr & Hc).
  destruct (stuck_run tr _ Hs Ho) as (Hs' & Hr' & Hc').
  cbv zeta. rewrite Hr', Hc', Hr, Hc. auto.
Qed.

(** After the cleanup of the mount effect no resize reaches the renderer:
    the graph reference is empty, nothing is logged or drawn, and readiness
    is as the cleanup left it, whatever sizes the container takes. *)
Theorem cleanup_silences_resizes (sizes : list (Z * Z)) :
  forall p : Page,
    let p' := fold_left (fun q wh => resize (fst wh) (snd wh) q)
                        sizes (cleanup p) in
    log p' = log p /\ svgRef p' = svgRef p
    /\ containerReady p' = containerReady p
    /\ graphRef p' = emptyGraph
    /\ resizeObserverRef p' = false /\ simulationRef p' = false.
Proof.
  assert (H : forall q : Page,
             resizeObserverRef q = false ->
             let q' := fold_left (fun r wh => resize (fst wh) (snd wh) r)
                                 sizes q in
             log q' = log q /\ svgRef q' = svgRef q
             /\ containerReady q' = containerReady q
             /\ graphRef q' = graphRef q
             /\ resizeObserverRef q' = false
             /\ simulationRef q' = simulationRef q).
  { induction sizes as [|[w h] rest IH]; intros q Hobs;
      cbn [fold_left fst snd]; [repeat split; auto|].
    rewrite (LifecycleFacts.unobserved_resize_is_ignored coerce
               illicitAddresses q w h Hobs).
    destruct (IH (resize_container w h q) Hobs)
      as (H1 & H2 & H3 & H4 & H5 & H6).
    split; [exact H1|]. split; [exact H2|]. split; [exact H3|].
    split; [exact H4|]. split; [exact H5 | exact H6]. }
  intros p. apply (H (cleanup p)). reflexivity.
Qed.

End WithEnvironment.

Lemma sizeless_mount_stays_uninitialized_witness :
  let p := Teardown.host_run no_coercion []
             (Lifecycle.mount zero_random no_coercion []
                (payload [obj_id "A"] []) (fresh 0 600))
             [HostResize 800 600; HostFullscreenChange; HostResize 1024 768] in
  svgRef p = None /\ containerReady p = false /\ initializations p = 0%nat.
Proof.
  intros p.
  apply (sizeless_mount_stays_uninitialized zero_random no_coercion [] 0 600
           (payload [obj_id "A"] [])
           [HostResize 800 600; HostFullscreenChange; HostResize 1024 768]).
  left. reflexivity.
Defined.

Lemma mount_outcome_witness :
  let flags := [mkFlag (JStr "A") (JStr "high") (JNum 1)
                       (JArr [JStr "chainabuse"]) JUndefined] in
  let p' := Renderer.mount zero_random no_coercion flags
              (payload [obj_id "A"; obj_id "B"] [raw_edge "A" "B"])
              (fresh 800 600) in
  svgRef p' = Some (draw_circles no_coercion flags Overlay.sample_graph)
  /\ containerReady p' = true /\ resizeObserverRef p' = true
  /\ simulationRef p' = true /\ error p' = None
  /\ initializations p' = 1%nat.
Proof.
  intros flags p'.
  apply (proj1 (proj2 (mount_outcome zero_random no_coercion flags 800 600
                         (payload [obj_id "A"; obj_id "B"] [raw_edge "A" "B"])
                         Overlay.sample_graph eq_refl
                         ltac:(discriminate) ltac:(discriminate))));
    reflexivity.
Defined.

End MountFacts.

(** ** Fullscreen *)

Module FullscreenFacts.

Import Fullscreen.

Lemma step_keeps_agreement (s : Screen) (e : event) :
  isFullscreen s = fullscreenElement s ->
  isFullscreen (step s e) = fullscreenElement (step s e).
Proof.
  intros H. destruct e as [[|]|[|]|]; simpl.
  - destruct (isFullscreen s) eqn:E; [congruence|].
    unfold toggleFullscreen. destruct (negb (fullscreenElement s)); reflexivity.
  - destruct (isFullscreen s) eqn:E; [congruence|].
    unfold toggleFullscreen.
    destruct (negb (fullscreenElement s)); simpl; congruence.
  - unfold handleEscape.
    destruct (fullscreenElement s) eqn:E; [reflexivity | congruence].
  - unfold handleEscape. destruct (fullscreenElement s) eqn:E; congruence.
  - reflexivity.
Qed.

(** The fullscreen flag never disagrees with the host: starting from
    agreement, after any sequence of button presses and Escape keys,
    granted or denied, and of exits the host makes on its own,
    [isFullscreen] is true exactly when the document has a fullscreen
    element. A denied request changes neither and leaves one notice. *)
Theorem fullscreen_flag_tracks_host (s : Screen) (tr : list event) :
  isFullscreen s = fullscreenElement s ->
  isFullscreen (run s tr) = fullscreenElement (run s tr)
  /\ (let denied := toggleFullscreen Rejects s in
      fullscreenElement denied = fullscreenElement s
      /\ isFullscreen denied = isFullscreen s
      /\ List.length (notices denied) = S (List.length (notices s))).
Proof.
  intros H. split.
  - unfold run. revert s H.
    induction tr as [|e rest IH]; intros s H; simpl; [exact H|].
    apply IH. apply step_keeps_agreement. exact H.
  - unfold toggleFullscreen.
    destruct (negb (fullscreenElement s)); simpl;
      rewrite length_app; simpl; repeat split; lia.
Qed.

Lemma fullscreen_flag_tracks_host_witness :
  let s := run windowed [ClickToggle Rejects; ClickToggle Resolves;
                         PressEscape Rejects; HostLeaves] in
  isFullscreen s = fullscreenElement s.
Proof.
  intros s.
  apply (fullscreen_flag_tracks_host windowed
           [ClickToggle Rejects; ClickToggle Resolves;
            PressEscape Rejects; HostLeaves]).
  reflexivity.
Defined.

End FullscreenFacts.

(** ** Instances of the gesture and resize lemmas *)

Module InstanceFacts.

Import Zoom Lifecycle.

Lemma gestures_stay_within_extent_witness :
  within_extent
    (k (zoom_prop
          (handle_all 800 600 initial_view
             [Gesture 1000 400 300; Pan 5 5; Gesture (1 # 100000) 0 0]))).
Proof.
  apply (ZoomFacts.gestures_stay_within_extent 800 600
           [Gesture 1000 400 300; Pan 5 5; Gesture (1 # 100000) 0 0]
           initial_view).
  - split; discriminate.
  - reflexivity.
Defined.


End InstanceFacts.
